(** * Task.py: task records, their JSON codec, the file adapter and the
      task manager.

    The development follows the Python module top down:
    - [value]: the Python values that [json.load] can produce and that the
      attributes of a task hold;
    - [Dates]: [datetime.date] with [strftime('%Y-%m-%d')] and
      [date.fromisoformat] as CPython 3.11 has them;
    - [task], [to_dict], [create_task_from_dict]: the three classes and the
      codec;
    - [FileHandler], [save_data], [load_data]: the storage adapter;
    - [TaskManager] and its methods, over a heap of task objects, because
      [complete_task] mutates an object that the list only references. *)

From stdpp Require Import gmap strings list fin_maps.
From Stdlib Require Import Ascii String ZArith Lia.

#[local] Set Warnings "-register-all".
#[local] Open Scope string_scope.
#[local] Open Scope list_scope.

(** ** Python values *)

(** What [json.load] returns: [None], booleans, integers, strings, lists and
    dictionaries with string keys.  JSON numbers with a fraction are left
    out: the program stores and compares the values and computes with none
    of them. *)
Inductive value : Type :=
  | VNone
  | VBool (b : bool)
  | VInt (z : Z)
  | VStr (s : string)
  | VList (l : list value)
  | VDict (d : gmap string value).

(** [v == "literal"] for a value [v] and a [str]: only an equal [str] is
    equal to a [str]. *)
Definition eq_str (v : value) (s : string) : bool :=
  match v with
  | VStr s' => String.eqb s' s
  | _ => false
  end.

(** Truth value of an object, as tested by [if loaded_dicts:]. *)
Definition truthy (v : value) : bool :=
  match v with
  | VNone => false
  | VBool b => b
  | VInt z => negb (Z.eqb z 0)
  | VStr s => negb (String.eqb s EmptyString)
  | VList l => negb (Nat.eqb (List.length l) 0)
  | VDict d => negb (Nat.eqb (size d) 0)
  end.

(** ** Exceptions and results *)

Inductive exn : Type :=
  | FileNotFoundError
  | JSONDecodeError
  | UnicodeDecodeError
  | KeyError (k : string)
  | ValueError
  | TypeError
  | AttributeError
  | RecursionError.

(** The outcome of running a piece of the program: it returns, it raises,
    or the model is [Stuck] on a reference to no object.  A Python list
    keeps its elements alive, so [Stuck] is an artefact of naming objects by
    heap index: no operation is stuck on a manager whose references are all
    in the heap, and the operations keep them there ([run_not_stuck],
    [run_wf]). *)
Inductive result (A : Type) : Type :=
  | Ok (a : A)
  | Raise (e : exn)
  | Stuck.
Arguments Ok {A} a.
Arguments Raise {A} e.
Arguments Stuck {A}.

#[global] Instance result_ret : MRet result := λ A a, Ok a.

#[global] Instance result_bind : MBind result := λ A B k r,
  match r with
  | Ok a => k a
  | Raise e => Raise e
  | Stuck => Stuck
  end.

(** [for x in xs: ... f x ...] collecting the results, stopping at the first
    exception: a list comprehension. *)
Fixpoint comprehension {A B} (f : A → result B) (xs : list A) : result (list B) :=
  match xs with
  | [] => Ok []
  | x :: xs' =>
      y ← f x;
      ys ← comprehension f xs';
      Ok (y :: ys)
  end.

(** [try: body / except (E1, E2): return handler]. *)
Definition try_except {A} (body : result A) (handles : exn → bool) (handler : A) : result A :=
  match body with
  | Raise e => if handles e then Ok handler else Raise e
  | r => r
  end.

(** [d[k]]: subscripting a dictionary raises [KeyError] on a missing key. *)
Definition subscript (d : gmap string value) (k : string) : result value :=
  match d !! k with
  | Some v => Ok v
  | None => Raise (KeyError k)
  end.

(** [d.get(k, dflt)]. *)
Definition get (d : gmap string value) (k : string) (dflt : value) : value :=
  default dflt (d !! k).

(** [iter(v)] run to the end: the elements of a list, the keys of a
    dictionary (in some order: none of them is a dictionary), the characters
    of a string; other values are not iterable. *)
Definition iterate (v : value) : result (list value) :=
  match v with
  | VList l => Ok l
  | VDict d => Ok (VStr <$> (map_to_list d).*1)
  | VStr s => Ok ((λ c, VStr (String c EmptyString)) <$> list_ascii_of_string s)
  | _ => Raise TypeError
  end.

(** ** Calendar dates *)

Module Dates.

#[local] Open Scope Z_scope.

Record date : Type := Date { year : Z; month : Z; day : Z }.

Definition is_leap (y : Z) : bool :=
  (y mod 4 =? 0) && (negb (y mod 100 =? 0) || (y mod 400 =? 0)).

Definition days_in_month (y m : Z) : Z :=
  match m with
  | 1 | 3 | 5 | 7 | 8 | 10 | 12 => 31
  | 4 | 6 | 9 | 11 => 30
  | 2 => if is_leap y then 29 else 28
  | _ => 0
  end.

(** The dates a [datetime.date] can hold: [MINYEAR = 1], [MAXYEAR = 9999]. *)
Definition valid_date (d : date) : bool :=
  (1 <=? year d) && (year d <=? 9999) &&
  (1 <=? month d) && (month d <=? 12) &&
  (1 <=? day d) && (day d <=? days_in_month (year d) (month d)).

Definition digit_char (n : Z) : ascii := ascii_of_N (Z.to_N (48 + n)).

Definition digit_val (c : ascii) : option Z :=
  let n := Z.of_N (N_of_ascii c) in
  if (48 <=? n) && (n <=? 57) then Some (n - 48) else None.

(** [%Y]: the year with century, written here with four digits, [0001] to
    [9999], as the library documents it.  From the year 1000 on this is what
    every C library prints; below, the C library decides ([glibc] prints
    [999]), and the properties that format a due date are stated for
    [portable_date]s.  [%m], [%d]: two digits. *)
Definition pad4 (n : Z) : string :=
  String (digit_char (n / 1000 mod 10)) (String (digit_char (n / 100 mod 10))
    (String (digit_char (n / 10 mod 10)) (String (digit_char (n mod 10)) EmptyString))).

Definition pad2 (n : Z) : string :=
  String (digit_char (n / 10 mod 10)) (String (digit_char (n mod 10)) EmptyString).

(** [d.strftime('%Y-%m-%d')]. *)
Definition strftime (d : date) : string :=
  pad4 (year d) +:+ "-" +:+ pad2 (month d) +:+ "-" +:+ pad2 (day d).

(** A date that [strftime('%Y-%m-%d')] prints as [YYYY-MM-DD] whatever the
    platform. *)
Definition portable_date (d : date) : bool :=
  valid_date d && (1000 <=? year d).

(** [date.fromisoformat] as CPython 3.11 has it, over the bytes of the
    string.  [peek p] is [*p], with the terminating [NUL] at the end, and
    [next p] is [p + 1]. *)
Definition peek (p : string) : ascii :=
  match p with
  | String c _ => c
  | EmptyString => zero
  end.

Definition next (p : string) : string :=
  match p with
  | String _ p' => p'
  | EmptyString => EmptyString
  end.

Definition at_end (p : string) : bool :=
  match p with
  | String _ _ => false
  | EmptyString => true
  end.

(** [parse_digits]: [num_digits] ASCII digits, accumulated in [var]. *)
Fixpoint parse_digits (num_digits : nat) (var : Z) (ptr : string)
    : option (Z * string) :=
  match num_digits with
  | O => Some (var, ptr)
  | S n =>
      tmp ← digit_val (peek ptr);
      parse_digits n (var * 10 + tmp) (next ptr)
  end.

Definition _days_before_month (m : Z) : Z :=
  match m with
  | 1 => 0 | 2 => 31 | 3 => 59 | 4 => 90 | 5 => 120 | 6 => 151
  | 7 => 181 | 8 => 212 | 9 => 243 | 10 => 273 | 11 => 304 | 12 => 334
  | _ => 0
  end.

Definition days_before_year (year : Z) : Z :=
  let y := year - 1 in
  y * 365 + y / 4 - y / 100 + y / 400.

Definition days_before_month (year month : Z) : Z :=
  let days := _days_before_month month in
  if (2 <? month) && is_leap year then days + 1 else days.

Definition ymd_to_ord (year month day : Z) : Z :=
  days_before_year year + days_before_month year month + day.

Definition weekday (year month day : Z) : Z :=
  (ymd_to_ord year month day + 6) mod 7.

Definition iso_week1_monday (year : Z) : Z :=
  let first_day := ymd_to_ord year 1 1 in
  let first_weekday := (first_day + 6) mod 7 in
  let week1_monday := first_day - first_weekday in
  if 3 <? first_weekday then week1_monday + 7 else week1_monday.

(** [ord_to_ymd], with [DI400Y = 146097], [DI100Y = 36524], [DI4Y = 1461]. *)
Definition ord_to_ymd (ordinal : Z) : Z * Z * Z :=
  let ordinal := ordinal - 1 in
  let n400 := ordinal / 146097 in
  let n := ordinal mod 146097 in
  let n100 := n / 36524 in
  let n := n mod 36524 in
  let n4 := n / 1461 in
  let n := n mod 1461 in
  let n1 := n / 365 in
  let n := n mod 365 in
  let year := n400 * 400 + 1 + n100 * 100 + n4 * 4 + n1 in
  if (n1 =? 4) || (n100 =? 4) then (year - 1, 12, 31)
  else
    let leapyear := (n1 =? 3) && (negb (n4 =? 24) || (n100 =? 3)) in
    let month := Z.shiftr (n + 50) 5 in
    let preceding :=
      _days_before_month month + (if (2 <? month) && leapyear then 1 else 0) in
    if n <? preceding then
      let month := month - 1 in
      let preceding := preceding - days_in_month year month in
      (year, month, n - preceding + 1)
    else (year, month, n - preceding + 1).

(** [iso_to_ymd]: the date of day [iso_day] of week [iso_week] of the ISO
    year; [None] for its error codes. *)
Definition iso_to_ymd (iso_year iso_week iso_day : Z) : option (Z * Z * Z) :=
  if (iso_year <? 1) || (9999 <? iso_year) then None
  else if
    ((iso_week <=? 0) || (53 <=? iso_week))
    && negb ((iso_week =? 53)
             && (let first_weekday := weekday iso_year 1 1 in
                 (first_weekday =? 3) || ((first_weekday =? 2) && is_leap iso_year)))
  then None
  else if (iso_day <=? 0) || (8 <=? iso_day) then None
  else
    let day_1 := iso_week1_monday iso_year in
    let day_offset := (iso_week - 1) * 7 + iso_day - 1 in
    Some (ord_to_ymd (day_1 + day_offset)).

(** [parse_isoformat_date]: [YYYY-MM-DD], [YYYYMMDD], or a week date
    [YYYY-Www], [YYYY-Www-D], [YYYYWww], [YYYYWwwD]; the separator is used
    throughout or not at all, and what follows the last digit is not
    looked at. *)
Definition parse_isoformat_date (dtstr : string) : option (Z * Z * Z) :=
  '(year, p) ← parse_digits 4 0 dtstr;
  let uses_separator := Ascii.eqb (peek p) "-" in
  let p := if uses_separator then next p else p in
  if Ascii.eqb (peek p) "W" then
    let p := next p in
    '(iso_week, p) ← parse_digits 2 0 p;
    if negb (at_end p) then
      if uses_separator && negb (Ascii.eqb (peek p) "-") then None
      else
        let p := if uses_separator then next p else p in
        '(iso_day, _) ← parse_digits 1 0 p;
        iso_to_ymd year iso_week iso_day
    else iso_to_ymd year iso_week 1
  else
    '(month, p) ← parse_digits 2 0 p;
    if uses_separator && negb (Ascii.eqb (peek p) "-") then None
    else
      let p := if uses_separator then next p else p in
      '(day, _) ← parse_digits 2 0 p;
      Some (year, month, day).

(** [new_date]: the range checks of the constructor. *)
Definition new_date (ymd : Z * Z * Z) : option date :=
  let d := Date ymd.1.1 ymd.1.2 ymd.2 in
  if valid_date d then Some d else None.

(** [date.fromisoformat(s)] for a [str]: the string has 7, 8 or 10 bytes,
    parses, and names a date of the calendar; [None] stands for the
    [ValueError] it raises otherwise. *)
Definition fromisoformat (s : string) : option date :=
  let len := String.length s in
  if (len =? 7)%nat || (len =? 8)%nat || (len =? 10)%nat then
    ymd ← parse_isoformat_date s;
    new_date ymd
  else None.

(** The basic format of ISO 8601, [YYYYMMDD]. *)
Definition isoformat_basic (d : date) : string :=
  pad4 (year d) +:+ pad2 (month d) +:+ pad2 (day d).

End Dates.
Export Dates.

(** ** The task classes *)

(** The class of an object, with the attribute the subclass adds. *)
Inductive variant : Type :=
  | PlainTask
  | Work (priority : value)
  | Personal (category : value).

(** An instance of [Task] or of one of its subclasses.  [name],
    [description], [status] and [reminder_duration] hold whatever the caller
    or the stored document gave; [due_date] is a [date], as [to_dict]
    formats it; [created_date] is the string [Task.__init__] formats. *)
Record task : Type := MkTask {
  name : value;
  description : value;
  status : value;
  due_date : date;
  reminder_duration : value;
  created_date : string;
  kind : variant
}.

Definition set_status (s : value) (t : task) : task :=
  MkTask (name t) (description t) s (due_date t) (reminder_duration t)
         (created_date t) (kind t).

Definition set_kind (k : variant) (t : task) : task :=
  MkTask (name t) (description t) (status t) (due_date t) (reminder_duration t)
         (created_date t) k.

Definition set_created_date (c : string) (t : task) : task :=
  MkTask (name t) (description t) (status t) (due_date t) (reminder_duration t)
         c (kind t).

Section Constructors.

(** [date.today()] at the moment of the call. *)
Variable today : date.

(** [Task.__init__] *)
Definition Task (name description status : value) (due_date : date)
    (reminder_duration : value) : task :=
  MkTask name description status due_date reminder_duration
         (strftime today) PlainTask.

(** [WorkTask.__init__]: [super().__init__], then [self.priority]. *)
Definition WorkTask (name description status : value) (due_date : date)
    (priority reminder_duration : value) : task :=
  let self := Task name description status due_date reminder_duration in
  set_kind (Work priority) self.

(** [PersonalTask.__init__]: [super().__init__], then [self.category]. *)
Definition PersonalTask (name description status : value) (due_date : date)
    (category reminder_duration : value) : task :=
  let self := Task name description status due_date reminder_duration in
  set_kind (Personal category) self.

End Constructors.

(** ** The codec *)

(** [Task.to_dict] *)
Definition Task_to_dict (self : task) : gmap string value :=
  list_to_map [
    ("type", VStr "Task");
    ("name", name self);
    ("description", description self);
    ("status", status self);
    ("due_date", VStr (strftime (due_date self)));
    ("reminder_duration", reminder_duration self);
    ("created_date", VStr (created_date self))
  ].

(** [WorkTask.to_dict] *)
Definition WorkTask_to_dict (self : task) (priority : value) : gmap string value :=
  let data := Task_to_dict self in
  let data := <["priority" := priority]> data in
  let data := <["type" := VStr "WorkTask"]> data in
  data.

(** [PersonalTask.to_dict] *)
Definition PersonalTask_to_dict (self : task) (category : value) : gmap string value :=
  let data := Task_to_dict self in
  let data := <["category" := category]> data in
  let data := <["type" := VStr "PersonalTask"]> data in
  data.

(** [task.to_dict()]: the method of the object's class. *)
Definition to_dict (self : task) : gmap string value :=
  match kind self with
  | PlainTask => Task_to_dict self
  | Work priority => WorkTask_to_dict self priority
  | Personal category => PersonalTask_to_dict self category
  end.

(** [date.fromisoformat(v)]: a [TypeError] for an argument that is no [str],
    a [ValueError] for a string that is no date. *)
Definition date_fromisoformat (v : value) : result date :=
  match v with
  | VStr s =>
      match fromisoformat s with
      | Some d => Ok d
      | None => Raise ValueError
      end
  | _ => Raise TypeError
  end.

(** [create_task_from_dict], on a dictionary. *)
Definition create_task_from_document (today : date) (task_dict : gmap string value)
    : result task :=
  let task_type := get task_dict "type" (VStr "Task") in
  due_date_str ← subscript task_dict "due_date";
  due_date ← date_fromisoformat due_date_str;
  if eq_str task_type "WorkTask" then
    name ← subscript task_dict "name";
    description ← subscript task_dict "description";
    status ← subscript task_dict "status";
    priority ← subscript task_dict "priority";
    Ok (WorkTask today name description status due_date priority
          (get task_dict "reminder_duration" VNone))
  else if eq_str task_type "PersonalTask" then
    name ← subscript task_dict "name";
    description ← subscript task_dict "description";
    status ← subscript task_dict "status";
    category ← subscript task_dict "category";
    Ok (PersonalTask today name description status due_date category
          (get task_dict "reminder_duration" VNone))
  else
    name ← subscript task_dict "name";
    description ← subscript task_dict "description";
    status ← subscript task_dict "status";
    Ok (Task today name description status due_date
          (get task_dict "reminder_duration" VNone)).

(** [create_task_from_dict]: its argument is whatever the stored list
    held; only a dictionary has the method [get]. *)
Definition create_task_from_dict (today : date) (task_dict : value) : result task :=
  match task_dict with
  | VDict d => create_task_from_document today d
  | _ => Raise AttributeError
  end.

(** ** The storage adapter *)

(** What the file at a path holds, by what [open(path, 'r')] followed by
    [json.load] does with it: [JsonText v] is text on which [json.load]
    returns [v]; [NotJson] is text that is no JSON document
    ([JSONDecodeError]); [NotText] is bytes that are no text in the encoding
    of [open] ([UnicodeDecodeError]); [IntTooLong] is JSON text with an
    integer of more digits than the interpreter converts ([ValueError]);
    [TooDeep] is JSON text nested deeper than the interpreter recurses
    ([RecursionError]).  The files are regular and accessible; a path
    bound to nothing has no file. *)
Inductive file : Type :=
  | JsonText (v : value)
  | NotJson
  | NotText
  | IntTooLong
  | TooDeep.

Record FileHandler : Type := MkFileHandler { filename : string }.

(** [with open(path, 'r') as f: return json.load(f)] *)
Definition open_json_load (disk : gmap string file) (path : string) : result value :=
  match disk !! path with
  | None => Raise FileNotFoundError
  | Some NotText => Raise UnicodeDecodeError
  | Some NotJson => Raise JSONDecodeError
  | Some IntTooLong => Raise ValueError
  | Some TooDeep => Raise RecursionError
  | Some (JsonText v) => Ok v
  end.

(** [FileHandler.save_data]: mode ['w'] creates or truncates the file, and
    [json.dump] writes text on which [json.load] returns [data] again.  The
    data are taken to hold no integer beyond the digit limit of the
    interpreter, which [json.dump] would not print. *)
Definition save_data (self : FileHandler) (data : value) (disk : gmap string file)
    : gmap string file :=
  <[filename self := JsonText data]> disk.

(** [except (FileNotFoundError, json.JSONDecodeError)] *)
Definition load_data_handles (e : exn) : bool :=
  match e with
  | FileNotFoundError | JSONDecodeError => true
  | _ => false
  end.

(** [FileHandler.load_data] *)
Definition load_data (self : FileHandler) (disk : gmap string file) : result value :=
  try_except (open_json_load disk (filename self)) load_data_handles (VList []).

(** ** The task manager *)

(** Task objects live in a heap and are named by their index: the list of
    a manager holds references, and [complete_task] assigns to an attribute
    of the referenced object. *)
Abbreviation loc := nat.

Record world : Type := MkWorld {
  heap : list task;
  disk : gmap string file
}.

Record TaskManager : Type := MkTaskManager {
  tasks : list loc;
  file_handler : FileHandler
}.

Definition set_tasks (ts : list loc) (self : TaskManager) : TaskManager :=
  MkTaskManager ts (file_handler self).

(** Reading an attribute through a reference. *)
Definition deref (w : world) (l : loc) : result task :=
  match heap w !! l with
  | Some o => Ok o
  | None => Stuck
  end.

(** A new object: the next free index. *)
Definition alloc (o : task) (w : world) : loc * world :=
  (List.length (heap w), MkWorld (heap w ++ [o]) (disk w)).

Fixpoint alloc_all (os : list task) (w : world) : list loc * world :=
  match os with
  | [] => ([], w)
  | o :: os' =>
      let '(l, w1) := alloc o w in
      let '(ls, w2) := alloc_all os' w1 in
      (l :: ls, w2)
  end.

(** [TaskManager.save_tasks] *)
Definition save_tasks (self : TaskManager) (w : world) : result world :=
  data_to_save ← comprehension (λ l, task ← deref w l; Ok (VDict (to_dict task))) (tasks self);
  Ok (MkWorld (heap w) (save_data (file_handler self) (VList data_to_save) (disk w))).

(** [TaskManager.load_tasks]: the comprehension builds every object before
    [self.tasks] is assigned. *)
Definition load_tasks (today : date) (self : TaskManager) (w : world)
    : result (TaskManager * world) :=
  loaded_dicts ← load_data (file_handler self) (disk w);
  if truthy loaded_dicts then
    ds ← iterate loaded_dicts;
    os ← comprehension (create_task_from_dict today) ds;
    let '(ls, w') := alloc_all os w in
    Ok (set_tasks ls self, w')
  else Ok (self, w).

(** [TaskManager.__init__] *)
Definition TaskManager_init (today : date) (w : world) : result (TaskManager * world) :=
  let self := MkTaskManager [] (MkFileHandler "tasks.json") in
  load_tasks today self w.

(** [TaskManager.add_task] *)
Definition add_task (task_object : loc) (self : TaskManager) (w : world)
    : result (TaskManager * world) :=
  let self := set_tasks (tasks self ++ [task_object]) self in
  w ← save_tasks self w;
  Ok (self, w).

(** [task.name != task_name] for each task of the list, keeping those for
    which it holds. *)
Fixpoint names_differ (w : world) (task_name : string) (ls : list loc)
    : result (list loc) :=
  match ls with
  | [] => Ok []
  | l :: ls' =>
      task ← deref w l;
      kept ← names_differ w task_name ls';
      Ok (if eq_str (name task) task_name then kept else l :: kept)
  end.

(** [TaskManager.delete_task] *)
Definition delete_task (task_name : string) (self : TaskManager) (w : world)
    : result (bool * TaskManager * world) :=
  let initial_count := List.length (tasks self) in
  kept ← names_differ w task_name (tasks self);
  let self := set_tasks kept self in
  if (List.length (tasks self) <? initial_count)%nat then
    w ← save_tasks self w;
    Ok (true, self, w)
  else Ok (false, self, w).

(** The loop of [complete_task] over the rest [ls] of [self.tasks]. *)
Fixpoint complete_loop (task_name : string) (self : TaskManager) (w : world)
    (ls : list loc) : result (bool * world) :=
  match ls with
  | [] => Ok (false, w)
  | l :: ls' =>
      task ← deref w l;
      if eq_str (name task) task_name then
        let w := MkWorld (<[l := set_status (VStr "Complete") task]> (heap w)) (disk w) in
        w ← save_tasks self w;
        Ok (true, w)
      else complete_loop task_name self w ls'
  end.

(** [TaskManager.complete_task] *)
Definition complete_task (task_name : string) (self : TaskManager) (w : world)
    : result (bool * world) :=
  complete_loop task_name self w (tasks self).

(** [manager.tasks] as the interface shows it: the objects in list order. *)
Definition records (self : TaskManager) (w : world) : result (list task) :=
  comprehension (deref w) (tasks self).

(** ** Vocabulary of the properties, and sample objects *)

(** The string [to_dict] stores under ["type"]. *)
Definition type_name (k : variant) : string :=
  match k with
  | PlainTask => "Task"
  | Work _ => "WorkTask"
  | Personal _ => "PersonalTask"
  end.

(** A work task entered on 27 February 2025. *)
Definition ship_report : task :=
  WorkTask (Date 2025 2 27) (VStr "Ship report") (VStr "Quarterly figures") (VStr "Pending")
           (Date 2025 3 1) (VStr "High") (VInt 2).

(** A document without ["type"] and with a key the decoder ignores. *)
Definition untyped_document : gmap string value :=
  list_to_map [
    ("name", VStr "Water plants");
    ("description", VStr "Balcony");
    ("status", VStr "Pending");
    ("due_date", VStr "2025-03-01");
    ("colour", VStr "green")
  ].

(** The keys [create_task_from_dict] subscripts: the four every class needs
    and the one its subclass adds. *)
Definition required_fields (d : gmap string value) : list string :=
  let task_type := get d "type" (VStr "Task") in
  ["due_date"; "name"; "description"; "status"] ++
  (if eq_str task_type "WorkTask" then ["priority"]
   else if eq_str task_type "PersonalTask" then ["category"]
   else []).

(** A value that is an ISO 8601 calendar date: the string [YYYY-MM-DD] or
    [YYYYMMDD] of a date of the calendar. *)
Definition iso_calendar_date (v : value) : Prop :=
  ∃ d, valid_date d = true
       ∧ (v = VStr (strftime d) ∨ v = VStr (isoformat_basic d)).

(** A value that [date.fromisoformat] turns into a date. *)
Definition parseable_date (v : value) : Prop :=
  ∃ s d, v = VStr s ∧ fromisoformat s = Some d.

(** When decoding cannot succeed. *)
Definition undecodable (d : gmap string value) : Prop :=
  (∃ k, k ∈ required_fields d ∧ d !! k = None)
  ∨ (∃ v, d !! "due_date" = Some v ∧ ¬ parseable_date v).

(** When decoding would fail if a due date had to be an ISO 8601 calendar
    date and nothing else. *)
Definition undecodable_calendar (d : gmap string value) : Prop :=
  (∃ k, k ∈ required_fields d ∧ d !! k = None)
  ∨ (∃ v, d !! "due_date" = Some v ∧ ¬ iso_calendar_date v).

(** A document whose due date has two characters after [YYYYMMDD]. *)
Definition trailing_document : gmap string value :=
  list_to_map [
    ("name", VStr "Water plants");
    ("description", VStr "Balcony");
    ("status", VStr "Pending");
    ("due_date", VStr "20250301xx")
  ].

(** The exceptions decoding raises: a missing key, a string that is no
    date, a due date that is no string. *)
Definition decode_error (e : exn) : Prop :=
  match e with
  | KeyError _ | ValueError | TypeError => True
  | _ => False
  end.

(** The document of [ship_report] with its ["priority"] lost. *)
Definition no_priority_document : gmap string value :=
  delete "priority" (to_dict ship_report).

(** A disk whose [tasks.json] holds bytes that are no text. *)
Definition binary_disk : gmap string file := {[ "tasks.json" := NotText ]}.

(** The references [ls] name, in order, the objects [os] of the heap. *)
Definition refs_to (h : list task) (ls : list loc) (os : list task) : Prop :=
  Forall2 (λ l o, h !! l = Some o) ls os.

(** Every reference of the manager names an object of the heap. *)
Definition wf (self : TaskManager) (w : world) : Prop :=
  Forall (λ l, (l < List.length (heap w))%nat) (tasks self).

(** The documents of a list of tasks, as [save_tasks] writes them. *)
Definition encode_all (os : list task) : value :=
  VList ((λ o, VDict (to_dict o)) <$> os).

(** [add_task] for each object of [ls] in turn. *)
Fixpoint add_tasks (ls : list loc) (self : TaskManager) (w : world)
    : result (TaskManager * world) :=
  match ls with
  | [] => Ok (self, w)
  | l :: ls' =>
      st ← add_task l self w;
      add_tasks ls' st.1 st.2
  end.

(** The same task entered a second time, on the same day. *)
Definition ship_report_again : task :=
  WorkTask (Date 2025 2 27) (VStr "Ship report") (VStr "again") (VStr "Pending")
           (Date 2025 3 2) (VStr "Low") (VInt 0).

Definition tasks_json : FileHandler := MkFileHandler "tasks.json".

(** The references whose object has another name than [task_name], and
    those objects. *)
Definition kept_refs (task_name : string) (ls : list loc) (os : list task) : list loc :=
  (List.filter (λ p, negb (eq_str (name p.2) task_name)) (zip ls os)).*1.

Definition kept (task_name : string) (os : list task) : list task :=
  List.filter (λ o, negb (eq_str (name o) task_name)) os.

Definition water_plants : task :=
  Task (Date 2025 2 27) (VStr "Water plants") (VStr "Balcony") (VStr "In-Progress")
       (Date 2025 3 1) VNone.

(** A manager of three tasks, two of them named alike. *)
Definition three_tasks : TaskManager := MkTaskManager [0; 1; 2] tasks_json.
Definition three_objects : world :=
  MkWorld [ship_report; water_plants; ship_report_again] ∅.

Definition complete (o : task) : task := set_status (VStr "Complete") o.

(** [ship_report] once it is complete. *)
Definition ship_report_done : task :=
  MkTask (VStr "Ship report") (VStr "Quarterly figures") (VStr "Complete")
         (Date 2025 3 1) (VInt 2) "2025-02-27" (Work (VStr "High")).

(** The objects behind the references [ls] once the object at [l] is
    complete: every reference to [l] shows the change. *)
Definition completed_in (l : loc) (ls : list loc) (os : list task) : list task :=
  zip_with (λ l' o, if decide (l' = l) then complete o else o) ls os.

(** The operations a caller has on a manager; [Construct] makes a new
    manager from the file. *)
Inductive operation : Type :=
  | AddTask (task_object : loc)
  | DeleteTask (task_name : string)
  | CompleteTask (task_name : string)
  | Construct (today : date).

Definition run (op : operation) (st : TaskManager * world)
    : result (TaskManager * world) :=
  match op with
  | AddTask task_object => add_task task_object st.1 st.2
  | DeleteTask task_name =>
      r ← delete_task task_name st.1 st.2;
      Ok (r.1.2, r.2)
  | CompleteTask task_name =>
      r ← complete_task task_name st.1 st.2;
      Ok (st.1, r.2)
  | Construct today => TaskManager_init today st.2
  end.

Fixpoint run_all (ops : list operation) (st : TaskManager * world)
    : result (TaskManager * world) :=
  match ops with
  | [] => Ok st
  | op :: ops' =>
      st' ← run op st;
      run_all ops' st'
  end.

(** An operation a caller can issue: [add_task] is given an object. *)
Definition issuable (op : operation) (w : world) : Prop :=
  match op with
  | AddTask task_object => (task_object < List.length (heap w))%nat
  | _ => True
  end.

(** [o'] is [o] but for its status. *)
Definition only_status_changed (o o' : task) : Prop :=
  o' = set_status (status o') o.

(** Every object of [h] is still there in [h'], changed in its status at
    most. *)
Definition heap_frame (h h' : list task) : Prop :=
  ∀ l o, h !! l = Some o → ∃ o', h' !! l = Some o' ∧ only_status_changed o o'.

(** ** The form of the page *)

(** The body of [with st.form("task_form")], run once with the values the
    widgets return: the radio button, the text inputs, the date input, the
    select box, the number input (an [int]: its bounds are) and the submit
    button.  The result carries the text given to [st.success], if any. *)
Definition task_form (today : date) (task_type name description : string)
    (due_date : date) (status priority category : string) (reminder_duration : Z)
    (submitted : bool) (self : TaskManager) (w : world)
    : result (option string * TaskManager * world) :=
  if String.eqb task_type "Work Task" then
    if submitted && truthy (VStr name) then
      let '(new_task, w) :=
        alloc (WorkTask today (VStr name) (VStr description) (VStr status) due_date
                 (VStr priority) (VInt reminder_duration)) w in
      st ← add_task new_task self w;
      Ok (Some ("Work Task '" +:+ name +:+ "' added successfully!"), st.1, st.2)
    else Ok (None, self, w)
  else if String.eqb task_type "Personal Task" then
    if submitted && truthy (VStr name) then
      let '(new_task, w) :=
        alloc (PersonalTask today (VStr name) (VStr description) (VStr status) due_date
                 (VStr category) (VInt reminder_duration)) w in
      st ← add_task new_task self w;
      Ok (Some ("Personal Task '" +:+ name +:+ "' added successfully!"), st.1, st.2)
    else Ok (None, self, w)
  else Ok (None, self, w).

(** ** Further vocabulary *)

(** The keys [create_task_from_dict] looks at. *)
Definition read_keys : list string :=
  ["type"; "due_date"; "name"; "description"; "status"; "priority"; "category";
   "reminder_duration"].

(** The keys of the document of a task of class [k]. *)
Definition document_keys (k : variant) : gset string :=
  list_to_set ["type"; "name"; "description"; "status"; "due_date";
               "reminder_duration"; "created_date"]
  ∪ match k with
    | PlainTask => ∅
    | Work _ => {[ "priority" ]}
    | Personal _ => {[ "category" ]}
    end.

(** The file of the manager holds the documents of its tasks as they are
    in memory. *)
Definition in_sync (self : TaskManager) (w : world) : Prop :=
  ∃ os, refs_to (heap w) (tasks self) os
        ∧ disk w !! filename (file_handler self) = Some (JsonText (encode_all os)).

(** * Properties *)

Example strftime_ex : strftime (Date 2025 3 1) = "2025-03-01".
Proof. reflexivity. Qed.

Example fromisoformat_ex : fromisoformat "2025-03-01" = Some (Date 2025 3 1).
Proof. reflexivity. Qed.

Example fromisoformat_feb30 : fromisoformat "2025-02-30" = None.
Proof. reflexivity. Qed.

Example fromisoformat_leap : fromisoformat "2024-02-29" = Some (Date 2024 2 29).
Proof. reflexivity. Qed.

Example fromisoformat_short : fromisoformat "2025-3-1" = None.
Proof. reflexivity. Qed.

Example fromisoformat_basic_ex : fromisoformat "20250301" = Some (Date 2025 3 1).
Proof. vm_compute. reflexivity. Qed.

Example fromisoformat_week : fromisoformat "2025-W09-6" = Some (Date 2025 3 1).
Proof. vm_compute. reflexivity. Qed.

Example fromisoformat_week_monday : fromisoformat "2025W09" = Some (Date 2025 2 24).
Proof. vm_compute. reflexivity. Qed.

Example fromisoformat_week_53 : fromisoformat "2026-W53-7" = Some (Date 2027 1 3).
Proof. vm_compute. reflexivity. Qed.

Example fromisoformat_no_week_53 : fromisoformat "2021-W53-1" = None.
Proof. vm_compute. reflexivity. Qed.

Example fromisoformat_past_the_end : fromisoformat "9999-W52-7" = None.
Proof. vm_compute. reflexivity. Qed.

Example fromisoformat_ordinal : fromisoformat "2025-060" = None.
Proof. vm_compute. reflexivity. Qed.

Example fromisoformat_mixed : fromisoformat "2025-0301" = None.
Proof. vm_compute. reflexivity. Qed.

Example fromisoformat_trailing : fromisoformat "2025W096xx" = Some (Date 2025 3 1).
Proof. vm_compute. reflexivity. Qed.

Example fromisoformat_year_999 : fromisoformat "0999-01-01" = Some (Date 999 1 1).
Proof. vm_compute. reflexivity. Qed.

Example fromisoformat_unpadded : fromisoformat "999-01-01" = None.
Proof. vm_compute. reflexivity. Qed.

(** ** Dates: formatting and parsing are inverse on the calendar *)

Section DateLemmas.

#[local] Open Scope Z_scope.

Lemma digit_val_char (k : Z) :
  0 ≤ k ≤ 9 → digit_val (digit_char k) = Some k.
Proof.
  intros Hk.
  assert (Hcases : k = 0 ∨ k = 1 ∨ k = 2 ∨ k = 3 ∨ k = 4 ∨
                   k = 5 ∨ k = 6 ∨ k = 7 ∨ k = 8 ∨ k = 9) by lia.
  repeat (destruct Hcases as [-> | Hcases]; [reflexivity |]).
  subst k. reflexivity.
Qed.

Lemma digit_val_inv (c : ascii) (k : Z) :
  digit_val c = Some k → 0 ≤ k ≤ 9 ∧ c = digit_char k.
Proof.
  intros H.
  destruct c as [[] [] [] [] [] [] [] []]; vm_compute in H;
    try discriminate H; injection H as <-; split; (lia || reflexivity).
Qed.

Lemma pad4_digits (y : Z) :
  0 ≤ y ≤ 9999 →
  1000 * (y / 1000 mod 10) + 100 * (y / 100 mod 10)
    + 10 * (y / 10 mod 10) + y mod 10 = y.
Proof. intros Hy. Z.div_mod_to_equations. lia. Qed.

Lemma pad2_digits (m : Z) :
  0 ≤ m ≤ 99 → 10 * (m / 10 mod 10) + m mod 10 = m.
Proof. intros Hm. Z.div_mod_to_equations. lia. Qed.

Lemma valid_date_bounds (d : date) :
  valid_date d = true →
  1 ≤ year d ≤ 9999 ∧ 1 ≤ month d ≤ 12 ∧ 1 ≤ day d ≤ 31.
Proof.
  unfold valid_date. rewrite !andb_true_iff, !Z.leb_le.
  intros [[[[[? ?] ?] ?] ?] Hday].
  assert (days_in_month (year d) (month d) ≤ 31).
  { unfold days_in_month. destruct (is_leap (year d));
      repeat (case_match; try lia). }
  lia.
Qed.

Lemma digit_char_not_hyphen (k : Z) :
  0 ≤ k ≤ 9 → Ascii.eqb (digit_char k) "-" = false.
Proof.
  intros Hk.
  assert (Hcases : k = 0 ∨ k = 1 ∨ k = 2 ∨ k = 3 ∨ k = 4 ∨
                   k = 5 ∨ k = 6 ∨ k = 7 ∨ k = 8 ∨ k = 9) by lia.
  repeat (destruct Hcases as [-> | Hcases]; [reflexivity |]).
  subst k. reflexivity.
Qed.

Lemma digit_char_not_W (k : Z) :
  0 ≤ k ≤ 9 → Ascii.eqb (digit_char k) "W" = false.
Proof.
  intros Hk.
  assert (Hcases : k = 0 ∨ k = 1 ∨ k = 2 ∨ k = 3 ∨ k = 4 ∨
                   k = 5 ∨ k = 6 ∨ k = 7 ∨ k = 8 ∨ k = 9) by lia.
  repeat (destruct Hcases as [-> | Hcases]; [reflexivity |]).
  subst k. reflexivity.
Qed.

Lemma portable_date_valid (d : date) :
  portable_date d = true → valid_date d = true ∧ 1000 ≤ year d.
Proof. unfold portable_date. rewrite andb_true_iff, Z.leb_le. tauto. Qed.

(** The digits of a date of the calendar. *)
Ltac date_digits :=
  rewrite ?digit_val_char, ?digit_char_not_hyphen, ?digit_char_not_W
    by (Z.div_mod_to_equations; lia).

(** Parsing what [strftime] printed gives the date back. *)
Lemma fromisoformat_strftime (d : date) :
  valid_date d = true → fromisoformat (strftime d) = Some d.
Proof.
  intros Hv. destruct (valid_date_bounds d Hv) as (Hy & Hm & Hd).
  destruct d as [y m dd]; cbn [year month day] in *.
  unfold fromisoformat, parse_isoformat_date, strftime, pad4, pad2.
  cbv [String.append year month day].
  cbn [String.length Nat.eqb orb mbind option_bind parse_digits peek next at_end].
  date_digits.
  cbn [mbind option_bind parse_digits peek next at_end Ascii.eqb Bool.eqb andb negb].
  date_digits.
  cbn [mbind option_bind parse_digits peek next at_end Ascii.eqb Bool.eqb andb negb].
  date_digits.
  cbn [mbind option_bind].
  replace (((0 * 10 + y / 1000 mod 10) * 10 + y / 100 mod 10) * 10
           + y / 10 mod 10) with (y / 10) by (Z.div_mod_to_equations; lia).
  replace (y / 10 * 10 + y mod 10) with y by (Z.div_mod_to_equations; lia).
  replace ((0 * 10 + m / 10 mod 10) * 10 + m mod 10) with m
    by (Z.div_mod_to_equations; lia).
  replace ((0 * 10 + dd / 10 mod 10) * 10 + dd mod 10) with dd
    by (Z.div_mod_to_equations; lia).
  unfold new_date. cbn [fst snd]. by rewrite Hv.
Qed.

(** So does parsing the basic format. *)
Lemma fromisoformat_basic (d : date) :
  valid_date d = true → fromisoformat (isoformat_basic d) = Some d.
Proof.
  intros Hv. destruct (valid_date_bounds d Hv) as (Hy & Hm & Hd).
  destruct d as [y m dd]; cbn [year month day] in *.
  unfold fromisoformat, parse_isoformat_date, isoformat_basic, pad4, pad2.
  cbv [String.append year month day].
  cbn [String.length Nat.eqb orb mbind option_bind parse_digits peek next at_end].
  date_digits.
  cbn [mbind option_bind parse_digits peek next at_end Ascii.eqb Bool.eqb andb negb].
  date_digits.
  cbn [mbind option_bind parse_digits peek next at_end Ascii.eqb Bool.eqb andb negb].
  date_digits.
  cbn [mbind option_bind parse_digits peek next at_end Ascii.eqb Bool.eqb andb negb].
  date_digits.
  cbn [mbind option_bind].
  replace (((0 * 10 + y / 1000 mod 10) * 10 + y / 100 mod 10) * 10
           + y / 10 mod 10) with (y / 10) by (Z.div_mod_to_equations; lia).
  replace (y / 10 * 10 + y mod 10) with y by (Z.div_mod_to_equations; lia).
  replace ((0 * 10 + m / 10 mod 10) * 10 + m mod 10) with m
    by (Z.div_mod_to_equations; lia).
  replace ((0 * 10 + dd / 10 mod 10) * 10 + dd mod 10) with dd
    by (Z.div_mod_to_equations; lia).
  unfold new_date. cbn [fst snd]. by rewrite Hv.
Qed.

(** Whatever [fromisoformat] returns is a date of the calendar. *)
Lemma fromisoformat_valid (s : string) (d : date) :
  fromisoformat s = Some d → valid_date d = true.
Proof.
  unfold fromisoformat. case_match; [| discriminate].
  destruct (parse_isoformat_date s) as [ymd |]; [| discriminate].
  cbn [mbind option_bind]. unfold new_date.
  destruct (valid_date _) eqn:Hv; [| discriminate].
  by intros [= <-].
Qed.

End DateLemmas.

Arguments strftime : simpl never.
Arguments fromisoformat : simpl never.

(** ** The codec *)

Section ToDictLookups.

Variable t : task.

Lemma to_dict_type : to_dict t !! "type" = Some (VStr (type_name (kind t))).
Proof. unfold to_dict. destruct (kind t); reflexivity. Qed.

Lemma to_dict_name : to_dict t !! "name" = Some (name t).
Proof. unfold to_dict. destruct (kind t); reflexivity. Qed.

Lemma to_dict_description : to_dict t !! "description" = Some (description t).
Proof. unfold to_dict. destruct (kind t); reflexivity. Qed.

Lemma to_dict_status : to_dict t !! "status" = Some (status t).
Proof. unfold to_dict. destruct (kind t); reflexivity. Qed.

Lemma to_dict_due_date :
  to_dict t !! "due_date" = Some (VStr (strftime (due_date t))).
Proof. unfold to_dict. destruct (kind t); reflexivity. Qed.

Lemma to_dict_reminder_duration :
  to_dict t !! "reminder_duration" = Some (reminder_duration t).
Proof. unfold to_dict. destruct (kind t); reflexivity. Qed.

Lemma to_dict_created_date :
  to_dict t !! "created_date" = Some (VStr (created_date t)).
Proof. unfold to_dict. destruct (kind t); reflexivity. Qed.

Lemma to_dict_priority (p : value) :
  kind t = Work p → to_dict t !! "priority" = Some p.
Proof. unfold to_dict. intros ->. reflexivity. Qed.

Lemma to_dict_category (c : value) :
  kind t = Personal c → to_dict t !! "category" = Some c.
Proof. unfold to_dict. intros ->. reflexivity. Qed.

End ToDictLookups.

(** Decoding the document of a task gives the task back in every attribute
    but [created_date], which is the day of the decoding. *)
Lemma decode_to_dict (today : date) (t : task) :
  portable_date (due_date t) = true →
  create_task_from_dict today (VDict (to_dict t))
  = Ok (set_created_date (strftime today) t).
Proof.
  intros [Hv _]%portable_date_valid. unfold create_task_from_dict, create_task_from_document, subscript, get.
  rewrite to_dict_type, to_dict_due_date, to_dict_name, to_dict_description,
    to_dict_status, to_dict_reminder_duration.
  simpl. rewrite (fromisoformat_strftime _ Hv). simpl.
  destruct t as [n de s dd r c k]; destruct k as [| p | c'].
  - reflexivity.
  - simpl. rewrite (to_dict_priority (MkTask n de s dd r c (Work p)) p eq_refl).
    reflexivity.
  - simpl. rewrite (to_dict_category (MkTask n de s dd r c (Personal c')) c' eq_refl).
    reflexivity.
Qed.

(** C1 (the code departs from the claim).  The round trip
    decode (encode r) = r does not hold in [created_date]: [to_dict] stores
    the attribute, [create_task_from_dict] never reads it back and the
    constructor stamps the day of decoding.  The task [ship_report], created
    on 2025-02-27 and decoded one day later, comes back with
    [created_date = "2025-02-28"], all other attributes intact. *)
Theorem roundtrip_resets_created_date :
  create_task_from_dict (Date 2025 2 28) (VDict (to_dict ship_report))
  = Ok (set_created_date "2025-02-28" ship_report)
  ∧ created_date ship_report = "2025-02-27"
  ∧ set_created_date "2025-02-28" ship_report ≠ ship_report.
Proof.
  split; [| split].
  - rewrite decode_to_dict; reflexivity.
  - reflexivity.
  - intros H. apply (f_equal created_date) in H. discriminate H.
Qed.

(** C6.  Decode dispatch: a document with the common fields and a
    parseable due date decodes to an object of class [WorkTask], with the
    document's ["priority"] as its priority, when its ["type"] is
    ["WorkTask"]; to one of class [PersonalTask], with its ["category"] as
    its category, when its ["type"] is ["PersonalTask"]; and to a plain
    [Task] for any other ["type"], absent or not.  In each case the other
    attributes are those of the document, the reminder [None] if absent. *)
Theorem create_task_from_dict_dispatch
    (today : date) (d : gmap string value) (n de s : value) (iso : string) (due : date) :
  d !! "name" = Some n →
  d !! "description" = Some de →
  d !! "status" = Some s →
  d !! "due_date" = Some (VStr iso) →
  fromisoformat iso = Some due →
  let r := match d !! "reminder_duration" with Some v => v | None => VNone end in
  (d !! "type" = Some (VStr "WorkTask") →
     ∀ p, d !! "priority" = Some p →
       create_task_from_dict today (VDict d)
       = Ok (MkTask n de s due r (strftime today) (Work p)))
  ∧ (d !! "type" = Some (VStr "PersonalTask") →
     ∀ c, d !! "category" = Some c →
       create_task_from_dict today (VDict d)
       = Ok (MkTask n de s due r (strftime today) (Personal c)))
  ∧ (d !! "type" ≠ Some (VStr "WorkTask") →
     d !! "type" ≠ Some (VStr "PersonalTask") →
       create_task_from_dict today (VDict d)
       = Ok (MkTask n de s due r (strftime today) PlainTask)).
Proof.
  intros Hn Hde Hs Hdue Hiso r.
  unfold create_task_from_dict, create_task_from_document, subscript.
  rewrite Hn, Hde, Hs, Hdue. simpl. rewrite Hiso. simpl.
  split; [| split].
  - intros Hty p Hp.
    replace (get d "type" (VStr "Task")) with (VStr "WorkTask")
      by (unfold get; by rewrite Hty).
    simpl. rewrite Hp. reflexivity.
  - intros Hty c Hc.
    replace (get d "type" (VStr "Task")) with (VStr "PersonalTask")
      by (unfold get; by rewrite Hty).
    simpl. rewrite Hc. reflexivity.
  - intros Hw Hp.
    assert (Hne : ∀ k, d !! "type" ≠ Some (VStr k) →
                       eq_str (get d "type" (VStr "Task")) k = true → k = "Task").
    { intros k Hk. unfold get.
      destruct (d !! "type") as [ty |]; unfold default, eq_str.
      - destruct ty; try discriminate.
        intros Heq%String.eqb_eq. by subst.
      - intros Heq%String.eqb_eq. by subst. }
    destruct (eq_str (get d "type" (VStr "Task")) "WorkTask") eqn:E1;
      [by apply Hne in E1 |].
    destruct (eq_str (get d "type" (VStr "Task")) "PersonalTask") eqn:E2;
      [by apply Hne in E2 |].
    reflexivity.
Qed.

Lemma create_task_from_dict_dispatch_witness :
  create_task_from_dict (Date 2025 2 28) (VDict (to_dict ship_report))
  = Ok (MkTask (VStr "Ship report") (VStr "Quarterly figures") (VStr "Pending")
          (Date 2025 3 1) (VInt 2) "2025-02-28" (Work (VStr "High")))
  ∧ create_task_from_dict (Date 2025 2 28) (VDict untyped_document)
  = Ok (MkTask (VStr "Water plants") (VStr "Balcony") (VStr "Pending")
          (Date 2025 3 1) VNone "2025-02-28" PlainTask).
Proof.
  split.
  - apply (proj1 (create_task_from_dict_dispatch (Date 2025 2 28) (to_dict ship_report)
             (VStr "Ship report") (VStr "Quarterly figures") (VStr "Pending") "2025-03-01" (Date 2025 3 1)
             eq_refl eq_refl eq_refl eq_refl eq_refl) eq_refl (VStr "High") eq_refl).
  - apply (proj2 (proj2 (create_task_from_dict_dispatch (Date 2025 2 28) untyped_document
             (VStr "Water plants") (VStr "Balcony") (VStr "Pending") "2025-03-01" (Date 2025 3 1)
             eq_refl eq_refl eq_refl eq_refl eq_refl))); vm_compute; discriminate.
Defined.

Lemma date_fromisoformat_cases (v : value) :
  (∃ due, date_fromisoformat v = Ok due ∧ parseable_date v)
  ∨ (∃ e, date_fromisoformat v = Raise e ∧ decode_error e ∧ ¬ parseable_date v).
Proof.
  destruct v as [| b | z | s | l | m];
    try (right; exists TypeError; split; [reflexivity | split; [exact I |]];
         intros (s' & d & Hd & _); discriminate Hd).
  simpl. destruct (fromisoformat s) as [due |] eqn:Hs.
  - left. exists due. split; [reflexivity |]. by exists s, due.
  - right. exists ValueError. split; [reflexivity | split; [exact I |]].
    intros (s' & d & [= <-] & Hd). congruence.
Qed.

Lemma iso_calendar_date_parseable (v : value) :
  iso_calendar_date v → parseable_date v.
Proof.
  intros (d & Hv & [-> | ->]).
  - exists (strftime d), d. split; [done | by apply fromisoformat_strftime].
  - exists (isoformat_basic d), d. split; [done | by apply fromisoformat_basic].
Qed.

(** Membership in a list that is written out. *)
Ltac elem_of_listed :=
  simpl; repeat first [apply list_elem_of_here | apply list_elem_of_further].

Lemma missing_required (d : gmap string value) (k : string) :
  k ∈ required_fields d → d !! k = None → undecodable d.
Proof. intros Hk Hnone. left. by exists k. Qed.

Lemma decode_cases (today : date) (d : gmap string value) :
  (∃ e, create_task_from_dict today (VDict d) = Raise e ∧ decode_error e ∧ undecodable d)
  ∨ (∃ t, create_task_from_dict today (VDict d) = Ok t ∧ ¬ undecodable d).
Proof.
  unfold create_task_from_dict, create_task_from_document, subscript.
  destruct (d !! "due_date") as [v |] eqn:Hdue; simpl;
    [| left; exists (KeyError "due_date"); split; [done | split; [done |]];
       apply (missing_required d "due_date"); [elem_of_listed | done]].
  destruct (date_fromisoformat_cases v) as [(due & -> & Hiso) | (e & -> & He & Hiso)]; simpl;
    [| left; exists e; split; [done | split; [done |]]; right; by exists v].
  assert (Hok : ∀ t : task,
     (∀ k, k ∈ required_fields d → is_Some (d !! k)) →
     ∃ t', Ok t = Ok t' ∧ ¬ undecodable d).
  { intros t Hall. exists t. split; [done |].
    intros [(k & Hk & Hnone) | (v' & Hv' & Hbad)].
    - destruct (Hall k Hk) as [x Hx]. congruence.
    - rewrite Hdue in Hv'. by injection Hv' as <-. }
  assert (Hfail : ∀ k, k ∈ required_fields d → d !! k = None →
     ∃ e, @Raise task (KeyError k) = Raise e ∧ decode_error e ∧ undecodable d).
  { intros k Hk Hnone. exists (KeyError k). split; [done | split; [done |]].
    by apply (missing_required d k). }
  unfold required_fields in Hok, Hfail.
  destruct (eq_str (get d "type" (VStr "Task")) "WorkTask");
    [| destruct (eq_str (get d "type" (VStr "Task")) "PersonalTask")];
    repeat match goal with
    | |- context [match d !! ?k with _ => _ end] =>
        let E := fresh "E" in
        destruct (d !! k) eqn:E; simpl;
        [| left; apply Hfail; [elem_of_listed | done]]
    end;
    right; apply Hok; intros k Hk;
    repeat (apply elem_of_cons in Hk as [-> | Hk]; [by eexists |]);
    by apply elem_of_nil in Hk.
Qed.

(** C7 (counterexample to the claim as stated).  Decoding does not fail
    on every due date that is no ISO 8601 calendar date: the string
    ["20250301xx"] is neither [YYYY-MM-DD] nor [YYYYMMDD] of any date, and
    [date.fromisoformat], which does not look past the eighth character of
    a ten-character string without separators, reads it as 1 March 2025, so
    the document decodes. *)
Lemma create_task_from_dict_reads_trailing :
  create_task_from_dict (Date 2025 2 28) (VDict trailing_document)
  = Ok (MkTask (VStr "Water plants") (VStr "Balcony") (VStr "Pending")
          (Date 2025 3 1) VNone "2025-02-28" PlainTask)
  ∧ ¬ iso_calendar_date (VStr "20250301xx")
  ∧ ¬ (∀ today d,
         (∃ e, create_task_from_dict today (VDict d) = Raise e)
         ↔ undecodable_calendar d).
Proof.
  assert (Hnot : ¬ iso_calendar_date (VStr "20250301xx")).
  { intros (d & _ & [H | H]).
    - assert (Hs : "20250301xx" = strftime d) by congruence.
      apply (f_equal (String.get 4)) in Hs.
      unfold strftime, pad4 in Hs. cbv [String.append String.get] in Hs.
      discriminate Hs.
    - assert (Hs : "20250301xx" = isoformat_basic d) by congruence.
      apply (f_equal String.length) in Hs. discriminate Hs. }
  split; [vm_compute; reflexivity | split; [exact Hnot |]].
  intros Hclaim.
  destruct (proj2 (Hclaim (Date 2025 2 28) trailing_document)) as [e He].
  - right. exists (VStr "20250301xx"). split; [reflexivity | exact Hnot].
  - vm_compute in He. discriminate He.
Qed.

(** C7 (as amended).  Decoding a document raises exactly when a key the
    decoder subscripts for the document's ["type"] is missing, or the value
    under ["due_date"] is not a string that [date.fromisoformat] reads as a
    date; what it raises is then a [KeyError], a [ValueError] or a
    [TypeError], and in every other case it returns a task.  Every ISO 8601
    calendar date, [YYYY-MM-DD] or [YYYYMMDD], is read, and what is read is
    a date of the calendar. *)
Theorem create_task_from_dict_fails_iff (today : date) (d : gmap string value) :
  ((∃ e, create_task_from_dict today (VDict d) = Raise e) ↔ undecodable d)
  ∧ (∀ e, create_task_from_dict today (VDict d) = Raise e → decode_error e)
  ∧ ((∃ t, create_task_from_dict today (VDict d) = Ok t) ↔ ¬ undecodable d)
  ∧ (∀ v, iso_calendar_date v → parseable_date v)
  ∧ (∀ t, create_task_from_dict today (VDict d) = Ok t → valid_date (due_date t) = true).
Proof.
  assert (Hvalid : ∀ t, create_task_from_dict today (VDict d) = Ok t →
                        valid_date (due_date t) = true).
  { intros t. unfold create_task_from_dict, create_task_from_document, subscript.
    destruct (d !! "due_date") as [v |]; simpl; [| discriminate].
    destruct v as [| | | s | |]; simpl; try discriminate.
    destruct (fromisoformat s) as [due |] eqn:Hs; simpl; [| discriminate].
    apply fromisoformat_valid in Hs.
    destruct (d !! "name"), (d !! "description"), (d !! "status"),
      (d !! "priority"), (d !! "category");
      repeat (case_match; simpl); try discriminate;
      by intros [= <-]. }
  destruct (decode_cases today d) as [(e & He & Herr & Hun) | (t & Ht & Hun)];
    rewrite ?He, ?Ht.
  - split; [| split; [| split; [| split]]].
    + split; [done | by exists e].
    + intros e' [= <-]. exact Herr.
    + split; [intros [t Ht]; discriminate Ht | done].
    + apply iso_calendar_date_parseable.
    + intros t Ht. discriminate Ht.
  - split; [| split; [| split; [| split]]].
    + split; [intros [e He]; discriminate He | done].
    + intros e He. discriminate He.
    + split; [done | by exists t].
    + apply iso_calendar_date_parseable.
    + intros t' [= <-]. by apply Hvalid.
Qed.

Lemma create_task_from_dict_fails_iff_witness :
  (∃ e, create_task_from_dict (Date 2025 2 28) (VDict no_priority_document) = Raise e)
  ∧ (∃ t, create_task_from_dict (Date 2025 2 28) (VDict untyped_document) = Ok t)
  ∧ parseable_date (VStr "20250301").
Proof.
  split; [| split].
  - apply (proj2 (proj1 (create_task_from_dict_fails_iff (Date 2025 2 28)
                           no_priority_document))).
    left. exists "priority". split; [| reflexivity].
    replace (required_fields no_priority_document)
      with ["due_date"; "name"; "description"; "status"; "priority"] by reflexivity.
    elem_of_listed.
  - apply (proj2 (proj1 (proj2 (proj2 (create_task_from_dict_fails_iff
                                         (Date 2025 2 28) untyped_document))))).
    intros [(k & Hk & Hnone) | (v & Hv & Hbad)].
    + replace (required_fields untyped_document)
        with ["due_date"; "name"; "description"; "status"] in Hk by reflexivity.
      repeat (apply elem_of_cons in Hk as [-> | Hk]; [discriminate Hnone |]).
      by apply elem_of_nil in Hk.
    + injection Hv as <-. apply Hbad.
      exists "2025-03-01", (Date 2025 3 1). split; reflexivity.
  - apply (proj1 (proj2 (proj2 (proj2 (create_task_from_dict_fails_iff
                                         (Date 2025 2 28) untyped_document))))).
    exists (Date 2025 3 1). split; [reflexivity | by right].
Defined.

(** C10.  The task [create_task_from_dict] builds carries the day of the
    decoding as its [created_date]; the document's ["created_date"] plays no
    part: changing or removing it changes nothing in the result.  A task
    that was stored (with a due date from the year 1000 on, which every
    platform prints alike) therefore comes back stamped with the day of
    loading. *)
Theorem create_task_from_dict_created_date (today : date) (d : gmap string value) :
  (∀ t, create_task_from_dict today (VDict d) = Ok t → created_date t = strftime today)
  ∧ (∀ v, create_task_from_dict today (VDict (<["created_date" := v]> d))
          = create_task_from_dict today (VDict d))
  ∧ create_task_from_dict today (VDict (delete "created_date" d))
    = create_task_from_dict today (VDict d)
  ∧ (∀ t, portable_date (due_date t) = true →
       ∃ t', create_task_from_dict today (VDict (to_dict t)) = Ok t'
             ∧ created_date t' = strftime today).
Proof.
  split; [| split; [| split]].
  - intros t. unfold create_task_from_dict, create_task_from_document, subscript.
    destruct (d !! "due_date") as [v |]; simpl; [| discriminate].
    destruct (date_fromisoformat v) as [due | |]; simpl; try discriminate.
    destruct (d !! "name"), (d !! "description"), (d !! "status"),
      (d !! "priority"), (d !! "category");
      repeat (case_match; simpl); try discriminate;
      intros [= <-]; reflexivity.
  - intros v. unfold create_task_from_dict, create_task_from_document, subscript, get.
    rewrite !lookup_insert_ne by done. reflexivity.
  - unfold create_task_from_dict, create_task_from_document, subscript, get.
    rewrite !lookup_delete_ne by done. reflexivity.
  - intros t Hv. eexists. split; [by apply decode_to_dict | reflexivity].
Qed.

Lemma create_task_from_dict_created_date_witness :
  created_date (set_created_date "2025-02-28" ship_report) = strftime (Date 2025 2 28)
  ∧ ∃ t', create_task_from_dict (Date 2025 2 28) (VDict (to_dict ship_report)) = Ok t'
          ∧ created_date t' = strftime (Date 2025 2 28).
Proof.
  pose proof (create_task_from_dict_created_date (Date 2025 2 28) (to_dict ship_report))
    as (Hstamp & _ & _ & Hload).
  split.
  - apply Hstamp. vm_compute. reflexivity.
  - apply Hload. reflexivity.
Defined.

(** ** The storage adapter *)

(** C5 (the code departs from the claim).  [load_data] does fail its
    caller: its [except] clause names [FileNotFoundError] and
    [JSONDecodeError] only, so on a file whose bytes do not decode it lets
    the [UnicodeDecodeError] of [json.load] through, and so does the
    construction of a manager; the same holds of the [ValueError] for an
    integer that is too long and of the [RecursionError] for nesting that
    is too deep.  The sibling cases, no file and text that is no JSON, give
    the empty list as claimed. *)
Theorem load_data_raises_on_binary_file :
  load_data (MkFileHandler "tasks.json") binary_disk = Raise UnicodeDecodeError
  ∧ TaskManager_init (Date 2025 2 28) (MkWorld [] binary_disk) = Raise UnicodeDecodeError
  ∧ ¬ (∀ disk, ∃ v, load_data (MkFileHandler "tasks.json") disk = Ok v)
  ∧ load_data (MkFileHandler "tasks.json") {[ "tasks.json" := IntTooLong ]}
    = Raise ValueError
  ∧ load_data (MkFileHandler "tasks.json") {[ "tasks.json" := TooDeep ]}
    = Raise RecursionError
  ∧ load_data (MkFileHandler "tasks.json") {[ "tasks.json" := NotJson ]}
    = Ok (VList [])
  ∧ load_data (MkFileHandler "tasks.json") ∅ = Ok (VList [])
  ∧ TaskManager_init (Date 2025 2 28) (MkWorld [] ∅)
    = Ok (MkTaskManager [] (MkFileHandler "tasks.json"), MkWorld [] ∅).
Proof.
  split; [reflexivity | split; [reflexivity | split]];
    [| repeat split; reflexivity].
  intros H. destruct (H binary_disk) as [v Hv]. discriminate Hv.
Qed.

(** ** The manager *)

Section ManagerLemmas.

Lemma deref_Some (w : world) (l : loc) (o : task) :
  heap w !! l = Some o → deref w l = Ok o.
Proof. unfold deref. by intros ->. Qed.

Lemma comprehension_deref (w : world) (ls : list loc) (os : list task) :
  refs_to (heap w) ls os → comprehension (deref w) ls = Ok os.
Proof.
  induction 1 as [| l o ls os Hl _ IH]; [reflexivity |].
  simpl. rewrite (deref_Some w l o Hl). simpl. rewrite IH. reflexivity.
Qed.

Lemma comprehension_to_dict (w : world) (ls : list loc) (os : list task) :
  refs_to (heap w) ls os →
  comprehension (λ l, task ← deref w l; Ok (VDict (to_dict task))) ls
  = Ok ((λ o, VDict (to_dict o)) <$> os).
Proof.
  induction 1 as [| l o ls os Hl _ IH]; [reflexivity |].
  simpl. rewrite (deref_Some w l o Hl). simpl. rewrite IH. reflexivity.
Qed.

Lemma save_tasks_ok (self : TaskManager) (w : world) (os : list task) :
  refs_to (heap w) (tasks self) os →
  save_tasks self w
  = Ok (MkWorld (heap w) (save_data (file_handler self) (encode_all os) (disk w))).
Proof.
  intros Hrefs. unfold save_tasks.
  rewrite (comprehension_to_dict w _ os Hrefs). reflexivity.
Qed.

Lemma refs_to_app h ls os l o :
  refs_to h ls os → h !! l = Some o → refs_to h (ls ++ [l]) (os ++ [o]).
Proof.
  intros Hrefs Hl. apply Forall2_app; [exact Hrefs |].
  constructor; [exact Hl | constructor].
Qed.

Lemma alloc_all_spec (os : list task) (w : world) :
  alloc_all os w
  = (seq (List.length (heap w)) (List.length os), MkWorld (heap w ++ os) (disk w)).
Proof.
  revert w. induction os as [| o os IH]; intros [h dk]; simpl.
  - by rewrite app_nil_r.
  - rewrite IH. simpl. rewrite length_app. simpl.
    rewrite Nat.add_1_r, <- app_assoc. reflexivity.
Qed.

Lemma refs_to_seq (h os : list task) :
  refs_to (h ++ os) (seq (List.length h) (List.length os)) os.
Proof.
  revert h. induction os as [| o os IH]; intros h; simpl; [constructor |].
  constructor.
  - by rewrite list_lookup_middle.
  - specialize (IH (h ++ [o])).
    rewrite length_app, Nat.add_1_r, <- app_assoc in IH. exact IH.
Qed.

Lemma comprehension_decode (today : date) (os : list task) :
  Forall (λ o, portable_date (due_date o) = true) os →
  comprehension (create_task_from_dict today) ((λ o, VDict (to_dict o)) <$> os)
  = Ok (set_created_date (strftime today) <$> os).
Proof.
  induction 1 as [| o os Hv _ IH]; [reflexivity |].
  rewrite !fmap_cons. cbn [comprehension].
  rewrite (decode_to_dict today o Hv), IH. reflexivity.
Qed.

End ManagerLemmas.

Lemma add_task_ok (self : TaskManager) (w : world) (os : list task)
    (task_object : loc) (o : task) :
  refs_to (heap w) (tasks self) os →
  heap w !! task_object = Some o →
  add_task task_object self w
  = Ok (set_tasks (tasks self ++ [task_object]) self,
        MkWorld (heap w)
          (<[filename (file_handler self) := JsonText (encode_all (os ++ [o]))]> (disk w))).
Proof.
  intros Hrefs Hl. unfold add_task.
  rewrite (save_tasks_ok _ w (os ++ [o])); [reflexivity |].
  by apply refs_to_app.
Qed.

Lemma add_tasks_ok (ls : list loc) (new : list task) :
  ∀ (self : TaskManager) (w : world) (os : list task),
  refs_to (heap w) (tasks self) os →
  refs_to (heap w) ls new →
  ls ≠ [] →
  add_tasks ls self w
  = Ok (set_tasks (tasks self ++ ls) self,
        MkWorld (heap w)
          (<[filename (file_handler self) := JsonText (encode_all (os ++ new))]> (disk w))).
Proof.
  revert new. induction ls as [| l ls IH]; intros new self w os Hrefs Hnew Hne; [done |].
  inversion Hnew as [| ? o ? new' Hl Hnew']; subst.
  cbn [add_tasks]. rewrite (add_task_ok self w os l o Hrefs Hl). simpl.
  destruct ls as [| l' ls'].
  - inversion Hnew'; subst. reflexivity.
  - rewrite (IH new' _ _ (os ++ [o])); [| by apply refs_to_app | exact Hnew' | done].
    simpl. rewrite insert_insert_eq, <- !app_assoc. reflexivity.
Qed.

(** C8.  [add_task] puts the new object at the end of the task list,
    whatever its name and the names already there, and overwrites the file
    with the documents of the whole list in list order; after a run of
    additions the file lists the documents in the order of insertion. *)
Theorem add_task_appends (self : TaskManager) (w : world) (os : list task)
    (task_object : loc) (o : task) :
  refs_to (heap w) (tasks self) os →
  heap w !! task_object = Some o →
  let self' := set_tasks (tasks self ++ [task_object]) self in
  let w' := MkWorld (heap w)
              (<[filename (file_handler self) := JsonText (encode_all (os ++ [o]))]> (disk w)) in
  add_task task_object self w = Ok (self', w')
  ∧ records self' w' = Ok (os ++ [o])
  ∧ (∀ ls new, refs_to (heap w) ls new → ls ≠ [] →
       add_tasks ls self w
       = Ok (set_tasks (tasks self ++ ls) self,
             MkWorld (heap w)
               (<[filename (file_handler self) := JsonText (encode_all (os ++ new))]> (disk w)))).
Proof.
  intros Hrefs Hl self' w'. split; [| split].
  - by apply add_task_ok.
  - unfold records. apply comprehension_deref. simpl. by apply refs_to_app.
  - intros ls new Hnew Hne. by apply add_tasks_ok.
Qed.

Lemma add_task_appends_witness :
  add_task 1 (MkTaskManager [0] tasks_json) (MkWorld [ship_report; ship_report_again] ∅)
  = Ok (MkTaskManager [0; 1] tasks_json,
        MkWorld [ship_report; ship_report_again]
          {[ "tasks.json" := JsonText (encode_all [ship_report; ship_report_again]) ]}).
Proof.
  apply (add_task_appends (MkTaskManager [0] tasks_json)
           (MkWorld [ship_report; ship_report_again] ∅) [ship_report] 1 ship_report_again).
  - repeat constructor.
  - reflexivity.
Defined.

(** Saving a task list and constructing a manager from the file gives the
    saved tasks in order, each with the day of the construction as its
    [created_date]. *)
Lemma save_then_construct (today : date) (self : TaskManager) (w : world)
    (os : list task) :
  file_handler self = tasks_json →
  refs_to (heap w) (tasks self) os →
  Forall (λ o, portable_date (due_date o) = true) os →
  ∃ w1 self2 w2,
    save_tasks self w = Ok w1
    ∧ TaskManager_init today w1 = Ok (self2, w2)
    ∧ records self2 w2 = Ok (set_created_date (strftime today) <$> os).
Proof.
  intros Hfh Hrefs Hvalid.
  exists (MkWorld (heap w) (<["tasks.json" := JsonText (encode_all os)]> (disk w))).
  rewrite (save_tasks_ok self w os Hrefs), Hfh.
  unfold TaskManager_init, load_tasks, load_data, open_json_load.
  cbn [file_handler filename disk heap].
  rewrite lookup_insert_eq. cbn [try_except mbind result_bind].
  destruct os as [| o os'].
  - inversion Hrefs as [Hnil |]. simpl.
    eexists _, _. split; [reflexivity | split; [reflexivity |]]. reflexivity.
  - cbn [truthy encode_all fmap list_fmap List.length Nat.eqb negb iterate mbind result_bind].
    change (VDict (to_dict o) :: ((λ o, VDict (to_dict o)) <$> os'))
      with ((λ o, VDict (to_dict o)) <$> (o :: os')).
    rewrite (comprehension_decode today (o :: os') Hvalid).
    cbn [mbind result_bind]. rewrite alloc_all_spec. cbn [heap disk].
    eexists _, _. split; [reflexivity | split; [reflexivity |]].
    unfold records. apply comprehension_deref. cbn [heap tasks set_tasks].
    apply refs_to_seq.
Qed.

(** C2 (the code departs from the claim).  Reloading is not the identity:
    a manager holding [ship_report], created on 2025-02-27, saves its list;
    a manager constructed from the file on the next day holds the task with
    [created_date = "2025-02-28"].  The cause is the one of C1: the stored
    ["created_date"] is never read. *)
Theorem reload_resets_created_date :
  let self := MkTaskManager [0] tasks_json in
  let w := MkWorld [ship_report] ∅ in
  ∃ w1 self2 w2,
    records self w = Ok [ship_report]
    ∧ save_tasks self w = Ok w1
    ∧ TaskManager_init (Date 2025 2 28) w1 = Ok (self2, w2)
    ∧ records self2 w2 = Ok [set_created_date "2025-02-28" ship_report]
    ∧ [set_created_date "2025-02-28" ship_report] ≠ [ship_report].
Proof.
  intros self w.
  eexists _, _, _.
  split; [reflexivity |].
  split; [reflexivity |].
  split; [vm_compute; reflexivity |].
  split; [reflexivity |].
  intros H. apply (f_equal (fmap created_date)) in H. discriminate H.
Qed.

(** ** Deleting by name *)

Lemma eq_str_true (v : value) (s : string) : eq_str v s = true ↔ v = VStr s.
Proof.
  destruct v; simpl; try (split; [discriminate | discriminate]).
  rewrite String.eqb_eq. split; [by intros -> | by intros [= ->]].
Qed.

Lemma eq_str_false (v : value) (s : string) : eq_str v s = false ↔ v ≠ VStr s.
Proof. rewrite <- eq_str_true. by destruct (eq_str v s). Qed.

Section DeleteLemmas.

Variable task_name : string.

Lemma kept_refs_cons (l : loc) (o : task) (ls : list loc) (os : list task) :
  kept_refs task_name (l :: ls) (o :: os)
  = if eq_str (name o) task_name then kept_refs task_name ls os
    else l :: kept_refs task_name ls os.
Proof. unfold kept_refs. simpl. by destruct (eq_str (name o) task_name). Qed.

Lemma kept_cons (o : task) (os : list task) :
  kept task_name (o :: os)
  = if eq_str (name o) task_name then kept task_name os
    else o :: kept task_name os.
Proof. unfold kept. simpl. by destruct (eq_str (name o) task_name). Qed.

Lemma names_differ_ok (w : world) (ls : list loc) (os : list task) :
  refs_to (heap w) ls os →
  names_differ w task_name ls = Ok (kept_refs task_name ls os).
Proof.
  induction 1 as [| l o ls os Hl _ IH]; [reflexivity |].
  cbn [names_differ]. rewrite (deref_Some w l o Hl), IH, kept_refs_cons.
  reflexivity.
Qed.

Lemma refs_to_kept (h : list task) (ls : list loc) (os : list task) :
  refs_to h ls os → refs_to h (kept_refs task_name ls os) (kept task_name os).
Proof.
  induction 1 as [| l o ls os Hl _ IH]; [constructor |].
  rewrite kept_refs_cons, kept_cons.
  destruct (eq_str (name o) task_name); [exact IH | by constructor].
Qed.

Lemma kept_refs_length (h : list task) (ls : list loc) (os : list task) :
  refs_to h ls os →
  (List.length (kept_refs task_name ls os) ≤ List.length ls)%nat.
Proof.
  induction 1 as [| l o ls os Hl _ IH]; [reflexivity |].
  rewrite kept_refs_cons.
  destruct (eq_str (name o) task_name); simpl; lia.
Qed.

Lemma kept_refs_shorter (h : list task) (ls : list loc) (os : list task) :
  refs_to h ls os →
  Exists (λ o, name o = VStr task_name) os →
  (List.length (kept_refs task_name ls os) < List.length ls)%nat.
Proof.
  induction 1 as [| l o ls os Hl Hrefs IH]; intros Hex; [by inversion Hex |].
  rewrite kept_refs_cons.
  destruct (eq_str (name o) task_name) eqn:E; simpl.
  - pose proof (kept_refs_length h ls os Hrefs). lia.
  - apply eq_str_false in E.
    inversion Hex as [? ? Hhere | ? ? Hlater]; subst; [done |].
    specialize (IH Hlater). lia.
Qed.

Lemma kept_refs_all (h : list task) (ls : list loc) (os : list task) :
  refs_to h ls os →
  Forall (λ o, name o ≠ VStr task_name) os →
  kept_refs task_name ls os = ls.
Proof.
  induction 1 as [| l o ls os Hl Hrefs IH]; intros Hall; [reflexivity |].
  inversion Hall as [| ? ? Hne Hrest]; subst.
  apply eq_str_false in Hne.
  rewrite kept_refs_cons, Hne. by rewrite IH.
Qed.

End DeleteLemmas.

(** C4.  [delete_task] keeps, in their order, exactly the tasks whose name
    is not the string given.  If some task bore the name, the shortened
    list is written to the file and [True] is returned; if none did,
    [False] is returned and manager, heap and disk are what they were. *)
Theorem delete_task_removes_by_name (task_name : string) (self : TaskManager)
    (w : world) (os : list task) :
  refs_to (heap w) (tasks self) os →
  let remaining := kept_refs task_name (tasks self) os in
  refs_to (heap w) remaining (kept task_name os)
  ∧ (Exists (λ o, name o = VStr task_name) os →
       delete_task task_name self w
       = Ok (true, set_tasks remaining self,
             MkWorld (heap w)
               (save_data (file_handler self) (encode_all (kept task_name os)) (disk w))))
  ∧ (Forall (λ o, name o ≠ VStr task_name) os →
       delete_task task_name self w = Ok (false, self, w)).
Proof.
  intros Hrefs remaining. subst remaining.
  pose proof (refs_to_kept task_name _ _ _ Hrefs) as Hkept.
  split; [exact Hkept | split].
  - intros Hex. unfold delete_task.
    rewrite (names_differ_ok task_name w _ os Hrefs). cbn [mbind result_bind].
    pose proof (kept_refs_shorter task_name _ _ _ Hrefs Hex) as Hlt.
    apply Nat.ltb_lt in Hlt. cbn [tasks set_tasks]. rewrite Hlt.
    rewrite (save_tasks_ok _ w (kept task_name os)); [reflexivity | exact Hkept].
  - intros Hall. unfold delete_task.
    rewrite (names_differ_ok task_name w _ os Hrefs). cbn [mbind result_bind].
    rewrite (kept_refs_all task_name _ _ _ Hrefs Hall). cbn [tasks set_tasks].
    rewrite Nat.ltb_irrefl. by destruct self.
Qed.

Lemma delete_task_removes_by_name_witness :
  delete_task "Ship report" three_tasks three_objects
  = Ok (true, MkTaskManager [1] tasks_json,
        MkWorld [ship_report; water_plants; ship_report_again]
          {[ "tasks.json" := JsonText (encode_all [water_plants]) ]}).
Proof.
  refine (proj1 (proj2 (delete_task_removes_by_name "Ship report" three_tasks
            three_objects [ship_report; water_plants; ship_report_again] _)) _).
  - repeat constructor.
  - constructor. reflexivity.
Defined.

(** ** Completing by name *)

Section CompleteLemmas.

Variable task_name : string.

Lemma refs_to_insert (h : list task) (ls : list loc) (os : list task)
    (l : loc) (o : task) :
  refs_to h ls os →
  h !! l = Some o →
  refs_to (<[l := complete o]> h) ls (completed_in l ls os).
Proof.
  intros Hrefs Hl.
  induction Hrefs as [| l' o' ls os Hl' _ IH]; [constructor |].
  unfold completed_in. simpl. constructor; [| exact IH].
  destruct (decide (l' = l)) as [-> | Hne].
  - rewrite Hl in Hl'. injection Hl' as <-.
    apply list_lookup_insert_eq. by eapply lookup_lt_Some.
  - by rewrite list_lookup_insert_ne.
Qed.

Lemma completed_in_absent (l : loc) (ls : list loc) (os : list task) :
  l ∉ ls → List.length ls = List.length os → completed_in l ls os = os.
Proof.
  revert os. induction ls as [| l' ls IH]; intros [| o os] Hnotin Hlen;
    try discriminate Hlen; [reflexivity |].
  unfold completed_in. simpl.
  apply not_elem_of_cons in Hnotin as [Hne Hnotin].
  rewrite decide_False by done. f_equal.
  apply IH; [exact Hnotin | by injection Hlen].
Qed.

Lemma completed_in_once (l : loc) (pre post : list loc) (o : task)
    (pre_os post_os : list task) :
  NoDup (pre ++ l :: post) →
  List.length pre = List.length pre_os →
  List.length post = List.length post_os →
  completed_in l (pre ++ l :: post) (pre_os ++ o :: post_os)
  = pre_os ++ complete o :: post_os.
Proof.
  intros Hnodup Hpre Hpost.
  apply NoDup_app in Hnodup as (_ & Hdisj & Hnodup).
  apply NoDup_cons in Hnodup as [Hpost_notin _].
  unfold completed_in. rewrite zip_with_app by exact Hpre. simpl.
  rewrite decide_True by done.
  f_equal; [| f_equal].
  - apply completed_in_absent; [| exact Hpre].
    intros Hin. apply (Hdisj l Hin). left.
  - by apply completed_in_absent.
Qed.

Lemma complete_loop_none (self : TaskManager) (w : world) (ls : list loc)
    (os : list task) :
  refs_to (heap w) ls os →
  Forall (λ o, name o ≠ VStr task_name) os →
  complete_loop task_name self w ls = Ok (false, w).
Proof.
  induction 1 as [| l o ls os Hl _ IH]; intros Hall; [reflexivity |].
  inversion Hall as [| ? ? Hne Hrest]; subst.
  apply eq_str_false in Hne.
  cbn [complete_loop]. rewrite (deref_Some w l o Hl). cbn [mbind result_bind].
  rewrite Hne. by apply IH.
Qed.

Lemma complete_loop_first (self : TaskManager) (w : world) (all_os : list task)
    (pre : list loc) (pre_os : list task) (l : loc) (o : task) (post : list loc) :
  refs_to (heap w) (tasks self) all_os →
  refs_to (heap w) pre pre_os →
  Forall (λ o, name o ≠ VStr task_name) pre_os →
  heap w !! l = Some o →
  name o = VStr task_name →
  complete_loop task_name self w (pre ++ l :: post)
  = Ok (true,
        MkWorld (<[l := complete o]> (heap w))
          (save_data (file_handler self)
             (encode_all (completed_in l (tasks self) all_os)) (disk w))).
Proof.
  intros Hall Hpre Hdiffer Hl Hname.
  induction Hpre as [| l' o' pre pre_os Hl' _ IH].
  - apply eq_str_true in Hname.
    cbn [app complete_loop]. rewrite (deref_Some w l o Hl). cbn [mbind result_bind].
    rewrite Hname.
    rewrite (save_tasks_ok self _ (completed_in l (tasks self) all_os));
      [reflexivity |].
    by apply refs_to_insert.
  - inversion Hdiffer as [| ? ? Hne Hrest]; subst.
    apply eq_str_false in Hne.
    cbn [app complete_loop]. rewrite (deref_Some w l' o' Hl'). cbn [mbind result_bind].
    rewrite Hne. by apply IH.
Qed.

(** Among tasks of which one bears the name, one is the first to. *)
Lemma first_match_split (os : list task) :
  Exists (λ o, name o = VStr task_name) os →
  ∃ pre o post,
    os = pre ++ o :: post
    ∧ Forall (λ o', name o' ≠ VStr task_name) pre
    ∧ name o = VStr task_name.
Proof.
  induction os as [| o os IH]; intros Hex; [by inversion Hex |].
  destruct (eq_str (name o) task_name) eqn:E.
  - apply eq_str_true in E. by exists [], o, os.
  - apply eq_str_false in E.
    inversion Hex as [? ? Hhere | ? ? Hlater]; subst; [done |].
    destruct (IH Hlater) as (pre & o' & post & -> & Hpre & Hname).
    exists (o :: pre), o', post. split; [done | split; [by constructor | done]].
Qed.

End CompleteLemmas.

(** C3.  When the first task of the list that bears the name is [o], at
    reference [l], [complete_task] makes the status of that object
    ["Complete"], all its other attributes staying, and changes no other
    object; it writes the documents of the whole list, that of [o] with
    status ["Complete"], to the file and returns [True]; where no reference
    is repeated the list shows the change at that one position.  It returns
    [True] whenever some task bears the name.  When none does it returns
    [False], and heap and disk are what they were. *)
Theorem complete_task_first_match (task_name : string) (self : TaskManager)
    (w : world) (os : list task) :
  refs_to (heap w) (tasks self) os →
  (∀ pre l post pre_os o post_os,
     tasks self = pre ++ l :: post →
     os = pre_os ++ o :: post_os →
     List.length pre = List.length pre_os →
     Forall (λ o', name o' ≠ VStr task_name) pre_os →
     name o = VStr task_name →
     let done := MkTask (name o) (description o) (VStr "Complete") (due_date o)
                   (reminder_duration o) (created_date o) (kind o) in
     let heap' := <[l := done]> (heap w) in
     let os' := completed_in l (tasks self) os in
     complete_task task_name self w
     = Ok (true,
           MkWorld heap' (save_data (file_handler self) (encode_all os') (disk w)))
     ∧ heap w !! l = Some o
     ∧ heap' !! l = Some done
     ∧ (∀ l', l' ≠ l → heap' !! l' = heap w !! l')
     ∧ refs_to heap' (tasks self) os'
     ∧ to_dict done !! "status" = Some (VStr "Complete")
     ∧ (NoDup (tasks self) → os' = pre_os ++ done :: post_os))
  ∧ (Exists (λ o, name o = VStr task_name) os →
       ∃ w', complete_task task_name self w = Ok (true, w'))
  ∧ (Forall (λ o, name o ≠ VStr task_name) os →
       complete_task task_name self w = Ok (false, w)).
Proof.
  intros Hrefs. split; [| split].
  - intros pre l post pre_os o post_os Hls Hos Hlen Hdiffer Hname done heap' os'.
    pose proof Hrefs as Hsplit. rewrite Hls, Hos in Hsplit.
    apply Forall2_app_inv in Hsplit as [Hpre Hrest]; [| exact Hlen].
    inversion Hrest as [| ? ? ? ? Hl Hpost]; subst.
    assert (Hdone : done = complete o) by reflexivity.
    split; [| split; [exact Hl | split; [| split; [| split; [| split]]]]].
    + subst heap' os'. rewrite Hdone. unfold complete_task.
      transitivity (complete_loop task_name self w (pre ++ l :: post));
        [by rewrite <- Hls |].
      by apply (complete_loop_first task_name self w _ pre pre_os).
    + subst heap'. apply list_lookup_insert_eq. by eapply lookup_lt_Some.
    + intros l' Hne. subst heap'. by rewrite list_lookup_insert_ne.
    + subst heap' os'. rewrite Hdone. by apply refs_to_insert.
    + rewrite Hdone. apply to_dict_status.
    + intros Hnodup. subst os'. rewrite Hls in *. rewrite Hdone.
      apply completed_in_once; [exact Hnodup | exact Hlen |].
      by eapply Forall2_length.
  - intros Hex.
    destruct (first_match_split task_name os Hex)
      as (pre_os & o & post_os & Hos & Hdiffer & Hname).
    pose proof Hrefs as Hsplit. rewrite Hos in Hsplit.
    apply Forall2_app_inv_r in Hsplit as (pre & rest & Hpre & Hrest & Hls).
    inversion Hrest as [| l ? post ? Hl Hpost]; subst rest.
    eexists. unfold complete_task.
    transitivity (complete_loop task_name self w (pre ++ l :: post));
      [by rewrite <- Hls |].
    by apply (complete_loop_first task_name self w os pre pre_os).
  - intros Hall. unfold complete_task. by eapply complete_loop_none.
Qed.

Lemma complete_task_first_match_witness :
  complete_task "Ship report" three_tasks three_objects
  = Ok (true,
        MkWorld [ship_report_done; water_plants; ship_report_again]
          {[ "tasks.json" :=
               JsonText (encode_all [ship_report_done; water_plants;
                                     ship_report_again]) ]})
  ∧ complete_task "Buy milk" three_tasks three_objects = Ok (false, three_objects).
Proof.
  pose proof (complete_task_first_match "Ship report" three_tasks three_objects
                [ship_report; water_plants; ship_report_again]) as Hfound.
  pose proof (complete_task_first_match "Buy milk" three_tasks three_objects
                [ship_report; water_plants; ship_report_again]) as Hnone.
  split.
  - refine (proj1 (proj1 (Hfound _) [] 0 [1; 2] [] ship_report
              [water_plants; ship_report_again] eq_refl eq_refl eq_refl _ eq_refl)).
    + repeat constructor.
    + constructor.
  - refine (proj2 (proj2 (Hnone _)) _).
    + repeat constructor.
    + repeat constructor; discriminate.
Defined.

(** ** What the operations leave alone *)

Section FrameLemmas.

Lemma only_status_changed_refl (o : task) : only_status_changed o o.
Proof. by destruct o. Qed.

Lemma only_status_changed_trans (o1 o2 o3 : task) :
  only_status_changed o1 o2 → only_status_changed o2 o3 →
  only_status_changed o1 o3.
Proof. unfold only_status_changed. intros -> ->. by destruct o1. Qed.

Lemma heap_frame_refl (h : list task) : heap_frame h h.
Proof. intros l o Hl. exists o. split; [done | apply only_status_changed_refl]. Qed.

Lemma heap_frame_trans (h1 h2 h3 : list task) :
  heap_frame h1 h2 → heap_frame h2 h3 → heap_frame h1 h3.
Proof.
  intros H12 H23 l o1 Hl.
  destruct (H12 l o1 Hl) as (o2 & Hl2 & Hc12).
  destruct (H23 l o2 Hl2) as (o3 & Hl3 & Hc23).
  exists o3. split; [done | by eapply only_status_changed_trans].
Qed.

Lemma heap_frame_app (h os : list task) : heap_frame h (h ++ os).
Proof.
  intros l o Hl. exists o.
  split; [by apply lookup_app_l_Some | apply only_status_changed_refl].
Qed.

Lemma heap_frame_insert (h : list task) (l : loc) (o : task) (s : value) :
  h !! l = Some o → heap_frame h (<[l := set_status s o]> h).
Proof.
  intros Hl l' o' Hl'. destruct (decide (l' = l)) as [-> | Hne].
  - rewrite Hl in Hl'. injection Hl' as <-. exists (set_status s o). split.
    + apply list_lookup_insert_eq. by eapply lookup_lt_Some.
    + by destruct o.
  - exists o'. rewrite list_lookup_insert_ne by done.
    split; [done | apply only_status_changed_refl].
Qed.

Lemma save_tasks_heap (self : TaskManager) (w w' : world) :
  save_tasks self w = Ok w' → heap w' = heap w.
Proof.
  unfold save_tasks.
  destruct (comprehension _ (tasks self)); simpl; [| discriminate ..].
  by intros [= <-].
Qed.

Lemma add_task_heap (task_object : loc) (self self' : TaskManager) (w w' : world) :
  add_task task_object self w = Ok (self', w') → heap w' = heap w.
Proof.
  unfold add_task.
  destruct (save_tasks _ w) as [w1 | |] eqn:Hsave; simpl; [| discriminate ..].
  intros [= _ <-]. by eapply save_tasks_heap.
Qed.

Lemma delete_task_heap (task_name : string) (self self' : TaskManager)
    (w w' : world) (b : bool) :
  delete_task task_name self w = Ok (b, self', w') → heap w' = heap w.
Proof.
  unfold delete_task.
  destruct (names_differ w task_name (tasks self)) as [ks | |]; simpl;
    [| discriminate ..].
  destruct (_ <? _)%nat.
  - destruct (save_tasks _ w) as [w1 | |] eqn:Hsave; simpl; [| discriminate ..].
    intros [= _ _ <-]. by eapply save_tasks_heap.
  - by intros [= _ _ <-].
Qed.

(** What the loop of [complete_task] can have done to the heap. *)
Lemma complete_loop_heap (task_name : string) (self : TaskManager) (w w' : world)
    (ls : list loc) (b : bool) :
  complete_loop task_name self w ls = Ok (b, w') →
  (b = false ∧ w' = w)
  ∨ (b = true ∧ ∃ l o, heap w !! l = Some o ∧ name o = VStr task_name
                       ∧ heap w' = <[l := complete o]> (heap w)).
Proof.
  induction ls as [| l ls IH]; cbn [complete_loop].
  - intros [= <- <-]. by left.
  - unfold deref. destruct (heap w !! l) as [o |] eqn:Hl; simpl; [| discriminate].
    destruct (eq_str (name o) task_name) eqn:Hname; [| exact IH].
    apply eq_str_true in Hname.
    destruct (save_tasks self _) as [w1 | |] eqn:Hsave; simpl; [| discriminate ..].
    intros [= <- <-]. right. split; [done |]. exists l, o.
    apply save_tasks_heap in Hsave. by rewrite Hsave.
Qed.

Lemma load_tasks_heap (today : date) (self self' : TaskManager) (w w' : world) :
  load_tasks today self w = Ok (self', w') → ∃ os, heap w' = heap w ++ os.
Proof.
  unfold load_tasks.
  destruct (load_data _ _) as [v | |]; simpl; [| discriminate ..].
  destruct (truthy v).
  - destruct (iterate v) as [ds | |]; simpl; [| discriminate ..].
    destruct (comprehension _ ds) as [os | |]; simpl; [| discriminate ..].
    rewrite alloc_all_spec. intros [= _ <-]. by exists os.
  - intros [= _ <-]. exists []. by rewrite app_nil_r.
Qed.

Lemma run_frame (op : operation) (self self' : TaskManager) (w w' : world) :
  run op (self, w) = Ok (self', w') → heap_frame (heap w) (heap w').
Proof.
  destruct op as [l | n | n | today]; simpl.
  - intros ->%add_task_heap. apply heap_frame_refl.
  - destruct (delete_task n self w) as [[[b s1] w1] | |] eqn:Hdel; simpl;
      [| discriminate ..].
    intros [= _ <-]. apply delete_task_heap in Hdel as ->. apply heap_frame_refl.
  - destruct (complete_task n self w) as [[b w1] | |] eqn:Hc; simpl;
      [| discriminate ..].
    intros [= _ <-].
    apply complete_loop_heap in Hc as [[_ ->] | [_ (l & o & Hl & _ & ->)]].
    + apply heap_frame_refl.
    + by apply heap_frame_insert.
  - intros [os ->]%load_tasks_heap. apply heap_frame_app.
Qed.

Lemma run_all_frame (ops : list operation) :
  ∀ (self self' : TaskManager) (w w' : world),
  run_all ops (self, w) = Ok (self', w') → heap_frame (heap w) (heap w').
Proof.
  induction ops as [| op ops IH]; intros self self' w w'; simpl.
  - intros [= _ <-]. apply heap_frame_refl.
  - destruct (run op (self, w)) as [[s1 w1] | |] eqn:Hrun; simpl; [| discriminate ..].
    intros Hrest. eapply heap_frame_trans.
    + by eapply run_frame.
    + by eapply IH.
Qed.

End FrameLemmas.

(** C9.  [complete_task] changes one object at most, the one whose
    status it sets: every object keeps its name, description, due date,
    reminder, creation date and class, and an object with another name is
    not changed at all.  Along any run of manager operations an object
    keeps its [created_date] (and all else but its status). *)
Theorem complete_task_only_sets_status :
  (∀ task_name self w b w',
     complete_task task_name self w = Ok (b, w') →
     (∀ l o, heap w !! l = Some o →
        ∃ o', heap w' !! l = Some o'
              ∧ only_status_changed o o'
              ∧ (name o ≠ VStr task_name → o' = o))
     ∧ (∃ l0, ∀ l, l ≠ l0 → heap w' !! l = heap w !! l)
     ∧ List.length (heap w') = List.length (heap w))
  ∧ (∀ ops self w self' w',
       run_all ops (self, w) = Ok (self', w') →
       ∀ l o, heap w !! l = Some o →
         ∃ o', heap w' !! l = Some o'
               ∧ created_date o' = created_date o
               ∧ only_status_changed o o').
Proof.
  split.
  - intros task_name self w b w' Hc.
    apply complete_loop_heap in Hc as [[_ ->] | [_ (l0 & o0 & Hl0 & Hname & Hheap)]].
    + split; [| split; [by exists 0 | done]].
      intros l o Hl. exists o. split; [done | split; [apply only_status_changed_refl | done]].
    + rewrite Hheap. split; [| split].
      * intros l o Hl. destruct (decide (l = l0)) as [-> | Hne].
        -- rewrite Hl0 in Hl. injection Hl as <-. exists (complete o0).
           split; [apply list_lookup_insert_eq; by eapply lookup_lt_Some |].
           split; [by destruct o0 | done].
        -- exists o. rewrite list_lookup_insert_ne by done.
           split; [done | split; [apply only_status_changed_refl | done]].
      * exists l0. intros l Hne. by rewrite list_lookup_insert_ne.
      * apply length_insert.
  - intros ops self w self' w' Hrun l o Hl.
    destruct (run_all_frame ops _ _ _ _ Hrun l o Hl) as (o' & Hl' & Hchanged).
    exists o'. split; [done | split; [| done]].
    rewrite Hchanged. reflexivity.
Qed.

Lemma complete_task_only_sets_status_witness :
  (∃ o', [complete ship_report; water_plants; ship_report_again] !! 1 = Some o'
         ∧ only_status_changed water_plants o'
         ∧ (name water_plants ≠ VStr "Ship report" → o' = water_plants))
  ∧ (∃ o', [complete ship_report; water_plants; ship_report_again] !! 0 = Some o'
           ∧ created_date o' = created_date ship_report
           ∧ only_status_changed ship_report o').
Proof.
  destruct complete_task_only_sets_status as [Hcomplete Hrun].
  split.
  - refine (proj1 (Hcomplete "Ship report" three_tasks three_objects true
              (MkWorld [complete ship_report; water_plants; ship_report_again]
                 {[ "tasks.json" :=
                      JsonText (encode_all [complete ship_report; water_plants;
                                            ship_report_again]) ]}) _)
              1 water_plants _ ); reflexivity.
  - refine (Hrun [CompleteTask "Ship report"; DeleteTask "Buy milk"]
              three_tasks three_objects three_tasks
              (MkWorld [complete ship_report; water_plants; ship_report_again]
                 {[ "tasks.json" :=
                      JsonText (encode_all [complete ship_report; water_plants;
                                            ship_report_again]) ]}) _
              0 ship_report _); reflexivity.
Defined.

(** ** The references of a manager never dangle *)

Section WellFormed.

Lemma wf_refs_to (self : TaskManager) (w : world) :
  wf self w ↔ ∃ os, refs_to (heap w) (tasks self) os.
Proof.
  unfold wf, refs_to. split.
  - induction 1 as [| l ls Hl _ [os IH]]; [by exists [] |].
    apply lookup_lt_is_Some_2 in Hl as [o Ho].
    exists (o :: os). by constructor.
  - intros [os Hrefs]. induction Hrefs as [| l o ls os Hl _ IH]; constructor.
    + by eapply lookup_lt_Some.
    + exact IH.
Qed.

Lemma create_task_from_dict_not_stuck (today : date) (v : value) :
  create_task_from_dict today v ≠ Stuck.
Proof.
  destruct v as [| b | z | s | l | d]; try discriminate.
  destruct (decode_cases today d) as [(e & -> & _) | (t & -> & _)]; discriminate.
Qed.

Lemma comprehension_not_stuck {A B} (f : A → result B) (xs : list A) :
  (∀ x, f x ≠ Stuck) → comprehension f xs ≠ Stuck.
Proof.
  intros Hf. induction xs as [| x xs IH]; [discriminate |].
  cbn [comprehension]. specialize (Hf x).
  destruct (f x); simpl; try done.
  destruct (comprehension f xs); simpl; done.
Qed.

Lemma load_tasks_not_stuck (today : date) (self : TaskManager) (w : world) :
  load_tasks today self w ≠ Stuck.
Proof.
  unfold load_tasks, load_data, open_json_load.
  destruct (disk w !! _) as [[v | | | |] |]; simpl; try discriminate.
  destruct (truthy v); [| discriminate].
  destruct v; simpl; try discriminate.
  all: match goal with
       | |- context [comprehension ?f ?xs] =>
           pose proof (comprehension_not_stuck f xs
                         (create_task_from_dict_not_stuck today)) as Hns;
           destruct (comprehension f xs) as [os | |]; simpl; try done
       end.
  all: rewrite alloc_all_spec; discriminate.
Qed.

Lemma complete_loop_not_stuck (task_name : string) (self : TaskManager) (w : world)
    (all_os : list task) (ls : list loc) (os : list task) :
  refs_to (heap w) (tasks self) all_os →
  refs_to (heap w) ls os →
  complete_loop task_name self w ls ≠ Stuck.
Proof.
  intros Hall. induction 1 as [| l o ls os Hl _ IH]; [discriminate |].
  cbn [complete_loop]. rewrite (deref_Some w l o Hl). cbn [mbind result_bind].
  destruct (eq_str (name o) task_name); [| exact IH].
  rewrite (save_tasks_ok self _ (completed_in l (tasks self) all_os));
    [discriminate |].
  by apply refs_to_insert.
Qed.

Lemma run_not_stuck (op : operation) (self : TaskManager) (w : world) :
  wf self w → issuable op w → run op (self, w) ≠ Stuck.
Proof.
  intros [os Hrefs]%wf_refs_to Hop.
  destruct op as [l | n | n | today]; simpl in *.
  - apply lookup_lt_is_Some_2 in Hop as [o Ho].
    by rewrite (add_task_ok self w os l o Hrefs Ho).
  - unfold delete_task. rewrite (names_differ_ok n w _ os Hrefs).
    cbn [mbind result_bind tasks set_tasks].
    destruct (_ <? _)%nat; [| discriminate].
    rewrite (save_tasks_ok _ w (kept n os)); [discriminate |].
    by apply refs_to_kept.
  - pose proof (complete_loop_not_stuck n self w os _ os Hrefs Hrefs) as Hns.
    unfold complete_task. by destruct (complete_loop n self w (tasks self)).
  - apply load_tasks_not_stuck.
Qed.

Lemma run_wf (op : operation) (self self' : TaskManager) (w w' : world) :
  wf self w → issuable op w →
  run op (self, w) = Ok (self', w') → wf self' w'.
Proof.
  intros Hwf Hop. pose proof Hwf as [os Hrefs]%wf_refs_to.
  destruct op as [l | n | n | today]; simpl in *.
  - apply lookup_lt_is_Some_2 in Hop as [o Ho].
    rewrite (add_task_ok self w os l o Hrefs Ho). intros [= <- <-].
    apply wf_refs_to. exists (os ++ [o]). by apply refs_to_app.
  - unfold delete_task. rewrite (names_differ_ok n w _ os Hrefs).
    cbn [mbind result_bind tasks set_tasks].
    pose proof (refs_to_kept n _ _ _ Hrefs) as Hkept.
    destruct (_ <? _)%nat.
    + rewrite (save_tasks_ok _ w (kept n os)) by exact Hkept.
      intros [= <- <-]. apply wf_refs_to. by exists (kept n os).
    + intros [= <- <-]. apply wf_refs_to. by exists (kept n os).
  - destruct (complete_task n self w) as [[b w1] | |] eqn:Hc; simpl;
      [| discriminate ..].
    intros [= <- <-].
    apply complete_loop_heap in Hc as [[_ ->] | [_ (l & o & _ & _ & Hheap)]];
      [exact Hwf |].
    unfold wf. rewrite Hheap, length_insert. exact Hwf.
  - unfold TaskManager_init, load_tasks.
    destruct (load_data _ _) as [v | |]; simpl; [| discriminate ..].
    destruct (truthy v); [| intros [= <- <-]; constructor].
    destruct (iterate v) as [ds | |]; simpl; [| discriminate ..].
    destruct (comprehension _ ds) as [new | |]; simpl; [| discriminate ..].
    rewrite alloc_all_spec. intros [= <- <-].
    apply wf_refs_to. exists new. apply refs_to_seq.
Qed.

End WellFormed.

(** * Further properties of the code *)

(** ** The codec *)



Lemma strftime_inj (d1 d2 : date) :
  valid_date d1 = true → valid_date d2 = true →
  strftime d1 = strftime d2 → d1 = d2.
Proof.
  intros H1 H2 Heq. apply fromisoformat_strftime in H1, H2.
  rewrite Heq in H1. congruence.
Qed.

Lemma to_dict_inj (t1 t2 : task) :
  valid_date (due_date t1) = true →
  valid_date (due_date t2) = true →
  to_dict t1 = to_dict t2 → t1 = t2.
Proof.
  intros Hv1 Hv2 Heq.
  pose proof (to_dict_name t1) as Hn. rewrite Heq, to_dict_name in Hn.
  pose proof (to_dict_description t1) as Hd. rewrite Heq, to_dict_description in Hd.
  pose proof (to_dict_status t1) as Hs. rewrite Heq, to_dict_status in Hs.
  pose proof (to_dict_due_date t1) as Hdue. rewrite Heq, to_dict_due_date in Hdue.
  pose proof (to_dict_reminder_duration t1) as Hr.
  rewrite Heq, to_dict_reminder_duration in Hr.
  pose proof (to_dict_created_date t1) as Hc. rewrite Heq, to_dict_created_date in Hc.
  pose proof (to_dict_type t1) as Hty. rewrite Heq, to_dict_type in Hty.
  assert (Hdue' : due_date t2 = due_date t1)
    by (apply strftime_inj; [done | done | congruence]).
  assert (Hty' : type_name (kind t2) = type_name (kind t1)) by congruence.
  assert (Hk : kind t2 = kind t1).
  { destruct (kind t1) as [| p1 | c1] eqn:E1, (kind t2) as [| p2 | c2] eqn:E2;
      try discriminate Hty'; [reflexivity | |].
    - pose proof (to_dict_priority t1 p1 E1) as Hp.
      rewrite Heq, (to_dict_priority t2 p2 E2) in Hp. congruence.
    - pose proof (to_dict_category t1 c1 E1) as Hp.
      rewrite Heq, (to_dict_category t2 c2 E2) in Hp. congruence. }
  destruct t1, t2; simpl in *. congruence.
Qed.

(** X2.  [to_dict] loses nothing: two different tasks with due dates of
    the calendar have different documents, whichever attribute, class or
    subclass attribute they differ in. *)
Theorem to_dict_distinguishes (t1 t2 : task) :
  valid_date (due_date t1) = true →
  valid_date (due_date t2) = true →
  t1 ≠ t2 → to_dict t1 ≠ to_dict t2.
Proof. intros Hv1 Hv2 Hne Heq. by apply Hne, to_dict_inj. Qed.

Lemma to_dict_distinguishes_witness :
  to_dict ship_report ≠ to_dict (set_created_date "2025-02-28" ship_report).
Proof.
  apply (to_dict_distinguishes ship_report (set_created_date "2025-02-28" ship_report));
    [reflexivity | reflexivity |].
  intros H. apply (f_equal created_date) in H. discriminate H.
Defined.

(** X3.  The document of a task has exactly the seven keys of [Task.to_dict],
    and the key of its subclass for a work or personal task; its ["type"] is
    one of the three class names. *)
Theorem to_dict_keys (t : task) :
  dom (to_dict t) = document_keys (kind t)
  ∧ (to_dict t !! "type" = Some (VStr "Task")
     ∨ to_dict t !! "type" = Some (VStr "WorkTask")
     ∨ to_dict t !! "type" = Some (VStr "PersonalTask")).
Proof.
  split.
  - unfold to_dict, document_keys.
    destruct (kind t); unfold WorkTask_to_dict, PersonalTask_to_dict, Task_to_dict;
      cbn [list_to_map foldr]; rewrite ?dom_insert_L, dom_empty_L;
      apply set_eq; intros k; rewrite !elem_of_union, ?elem_of_list_to_set,
        ?elem_of_singleton, ?elem_of_cons, ?elem_of_nil, ?elem_of_empty; tauto.
  - rewrite to_dict_type. destruct (kind t); auto.
Qed.

(** X4.  [create_task_from_dict] looks at eight keys only: setting or
    removing any other key of a document changes nothing in what it returns
    or raises. *)
Theorem create_task_from_dict_ignores_other_keys (today : date)
    (d : gmap string value) (k : string) :
  k ∉ read_keys →
  (∀ v, create_task_from_dict today (VDict (<[k := v]> d))
        = create_task_from_dict today (VDict d))
  ∧ create_task_from_dict today (VDict (delete k d))
    = create_task_from_dict today (VDict d).
Proof.
  unfold read_keys. rewrite !not_elem_of_cons.
  intros (? & ? & ? & ? & ? & ? & ? & ? & _).
  unfold create_task_from_dict, create_task_from_document, subscript, get.
  split; [intros v |].
  - rewrite !lookup_insert_ne by done. reflexivity.
  - rewrite !lookup_delete_ne by done. reflexivity.
Qed.

Lemma create_task_from_dict_ignores_other_keys_witness :
  create_task_from_dict (Date 2025 2 28) (VDict (delete "colour" untyped_document))
  = create_task_from_dict (Date 2025 2 28) (VDict untyped_document).
Proof.
  apply (create_task_from_dict_ignores_other_keys (Date 2025 2 28) untyped_document
           "colour").
  unfold read_keys. rewrite !not_elem_of_cons.
  repeat split; try discriminate. apply not_elem_of_nil.
Defined.

(** What a successful decoding tells about the task. *)
Lemma create_task_from_document_Ok (today : date) (d : gmap string value) (t : task) :
  create_task_from_document today d = Ok t →
  valid_date (due_date t) = true ∧ created_date t = strftime today.
Proof.
  unfold create_task_from_document, subscript.
  destruct (d !! "due_date") as [v |]; simpl; [| discriminate].
  destruct v as [| | | s | |]; simpl; try discriminate.
  destruct (fromisoformat s) as [due |] eqn:Hs; simpl; [| discriminate].
  apply fromisoformat_valid in Hs as Hv.
  destruct (d !! "name"), (d !! "description"), (d !! "status"),
    (d !! "priority"), (d !! "category");
    repeat (case_match; simpl); try discriminate;
    intros [= <-]; by split.
Qed.

(** X5.  Decoding settles at once: the document of a task that was decoded
    from any document, with a due date from the year 1000 on, decodes on the
    same day to that same task, in whichever of the formats of
    [date.fromisoformat] the due date was written. *)
Theorem decode_to_dict_decode (today : date) (d : gmap string value) (t : task) :
  create_task_from_dict today (VDict d) = Ok t →
  (1000 ≤ year (due_date t))%Z →
  create_task_from_dict today (VDict (to_dict t)) = Ok t.
Proof.
  intros [Hv Hc]%create_task_from_document_Ok Hyear.
  rewrite (decode_to_dict today t), <- Hc; [by destruct t |].
  unfold portable_date. rewrite Hv. by apply Z.leb_le.
Qed.

Lemma decode_to_dict_decode_witness :
  create_task_from_dict (Date 2025 2 28)
    (VDict (to_dict (Task (Date 2025 2 28) (VStr "Water plants") (VStr "Balcony")
                       (VStr "Pending") (Date 2025 3 1) VNone)))
  = Ok (Task (Date 2025 2 28) (VStr "Water plants") (VStr "Balcony")
          (VStr "Pending") (Date 2025 3 1) VNone).
Proof.
  apply (decode_to_dict_decode (Date 2025 2 28) trailing_document).
  - vm_compute. reflexivity.
  - vm_compute. discriminate.
Defined.

(** X6.  Whatever the class, a task that is constructed carries as
    [created_date] a string that [date.fromisoformat] reads back as the day
    of the construction. *)
Theorem constructors_stamp_today (today : date) (n de s : value) (due : date)
    (x r : value) :
  valid_date today = true →
  fromisoformat (created_date (Task today n de s due r)) = Some today
  ∧ fromisoformat (created_date (WorkTask today n de s due x r)) = Some today
  ∧ fromisoformat (created_date (PersonalTask today n de s due x r)) = Some today.
Proof.
  intros Hv. repeat split; by apply fromisoformat_strftime.
Qed.

Lemma constructors_stamp_today_witness :
  fromisoformat (created_date ship_report) = Some (Date 2025 2 27).
Proof.
  apply (constructors_stamp_today (Date 2025 2 27) (VStr "Ship report")
           (VStr "Quarterly figures") (VStr "Pending") (Date 2025 3 1)
           (VStr "High") (VInt 2)).
  reflexivity.
Defined.

(** ** The storage adapter *)

(** ** Constructing a manager from a file *)

Lemma comprehension_Forall2 {A B} (f : A → result B) (xs : list A) (ys : list B) :
  Forall2 (λ x y, f x = Ok y) xs ys → comprehension f xs = Ok ys.
Proof.
  induction 1 as [| x y xs ys Hx _ IH]; [reflexivity |].
  cbn [comprehension]. by rewrite Hx, IH.
Qed.

Lemma comprehension_raises {A B} (f : A → result B) (pre : list A) (ys : list B)
    (x : A) (post : list A) (e : exn) :
  Forall2 (λ x y, f x = Ok y) pre ys → f x = Raise e →
  comprehension f (pre ++ x :: post) = Raise e.
Proof.
  induction 1 as [| x' y pre ys Hx' _ IH]; intros Hx.
  - cbn [app comprehension]. by rewrite Hx.
  - cbn [app comprehension]. by rewrite Hx', IH.
Qed.

Lemma seq_NoDup_refs (start len : nat) : NoDup (seq start len).
Proof. apply NoDup_ListNoDup, List.seq_NoDup. Qed.

(** X8.  A file whose JSON value is [null], [false], [0], the empty
    string, the empty list or the empty object gives an empty manager:
    nothing is raised and nothing is allocated or written. *)
Theorem TaskManager_init_falsy (today : date) (h : list task)
    (disk : gmap string file) (v : value) :
  disk !! "tasks.json" = Some (JsonText v) →
  v = VNone ∨ v = VBool false ∨ v = VInt 0 ∨ v = VStr EmptyString
  ∨ v = VList [] ∨ v = VDict ∅ →
  TaskManager_init today (MkWorld h disk) = Ok (MkTaskManager [] tasks_json, MkWorld h disk).
Proof.
  intros Hfile Hv.
  unfold TaskManager_init, load_tasks, load_data, open_json_load. simpl.
  rewrite Hfile. simpl.
  destruct Hv as [-> | [-> | [-> | [-> | [-> | ->]]]]]; reflexivity.
Qed.

Lemma TaskManager_init_falsy_witness :
  TaskManager_init (Date 2025 2 28) (MkWorld [] {[ "tasks.json" := JsonText (VDict ∅) ]})
  = Ok (MkTaskManager [] tasks_json, MkWorld [] {[ "tasks.json" := JsonText (VDict ∅) ]})
  ∧ TaskManager_init (Date 2025 2 28)
      (MkWorld [ship_report] {[ "tasks.json" := JsonText (VInt 0) ]})
    = Ok (MkTaskManager [] tasks_json,
          MkWorld [ship_report] {[ "tasks.json" := JsonText (VInt 0) ]}).
Proof.
  split.
  - apply (TaskManager_init_falsy (Date 2025 2 28) [] _ (VDict ∅)); [reflexivity |].
    by repeat right.
  - apply (TaskManager_init_falsy (Date 2025 2 28) [ship_report] _ (VInt 0));
      [reflexivity |].
    by right; right; left.
Defined.

(** X9.  One document that does not decode aborts the construction: when
    the stored list holds, after documents that decode, an element on which
    [create_task_from_dict] raises, constructing the manager raises the same
    exception and no manager is returned, whatever follows in the list. *)
Theorem TaskManager_init_aborts (today : date) (h : list task)
    (disk : gmap string file) (pre : list value) (ts : list task)
    (bad : value) (post : list value) (e : exn) :
  disk !! "tasks.json" = Some (JsonText (VList (pre ++ bad :: post))) →
  Forall2 (λ d t, create_task_from_dict today d = Ok t) pre ts →
  create_task_from_dict today bad = Raise e →
  TaskManager_init today (MkWorld h disk) = Raise e.
Proof.
  intros Hfile Hpre Hbad.
  unfold TaskManager_init, load_tasks, load_data, open_json_load. simpl.
  rewrite Hfile. cbn [try_except mbind result_bind truthy].
  rewrite length_app. cbn [List.length].
  replace (List.length pre + S (List.length post) =? 0)%nat with false
    by (symmetry; apply Nat.eqb_neq; lia).
  cbn [negb iterate mbind result_bind].
  by rewrite (comprehension_raises _ pre ts bad post e Hpre Hbad).
Qed.

Lemma TaskManager_init_aborts_witness :
  TaskManager_init (Date 2025 2 28)
    (MkWorld [] {[ "tasks.json" :=
       JsonText (VList ([VDict untyped_document] ++ VDict no_priority_document
                          :: [VDict untyped_document])) ]})
  = Raise (KeyError "priority").
Proof.
  apply (TaskManager_init_aborts (Date 2025 2 28) [] _ [VDict untyped_document]
           [Task (Date 2025 2 28) (VStr "Water plants") (VStr "Balcony")
              (VStr "Pending") (Date 2025 3 1) VNone]
           (VDict no_priority_document) [VDict untyped_document]).
  - reflexivity.
  - repeat constructor.
  - vm_compute. reflexivity.
Defined.

(** X10.  Stored JSON that is no list of objects makes the construction
    raise: a number other than [0], or [true], cannot be iterated
    ([TypeError]); the characters of a non-empty string, the keys of a
    non-empty object and a list element that is no object have no method
    [get] ([AttributeError]). *)
Theorem TaskManager_init_not_a_list_of_objects (today : date) (h : list task)
    (disk : gmap string file) :
  (∀ z, z ≠ 0%Z → disk !! "tasks.json" = Some (JsonText (VInt z)) →
     TaskManager_init today (MkWorld h disk) = Raise TypeError)
  ∧ (disk !! "tasks.json" = Some (JsonText (VBool true)) →
     TaskManager_init today (MkWorld h disk) = Raise TypeError)
  ∧ (∀ s, s ≠ EmptyString → disk !! "tasks.json" = Some (JsonText (VStr s)) →
     TaskManager_init today (MkWorld h disk) = Raise AttributeError)
  ∧ (∀ d, d ≠ ∅ → disk !! "tasks.json" = Some (JsonText (VDict d)) →
     TaskManager_init today (MkWorld h disk) = Raise AttributeError)
  ∧ (∀ x xs, (∀ d, x ≠ VDict d) →
     disk !! "tasks.json" = Some (JsonText (VList (x :: xs))) →
     TaskManager_init today (MkWorld h disk) = Raise AttributeError).
Proof.
  unfold TaskManager_init, load_tasks, load_data, open_json_load. simpl.
  repeat split.
  4: { intros d Hd ->. simpl.
       pose proof (proj2 (map_size_non_empty_iff d) Hd) as Hsize.
       apply Nat.eqb_neq in Hsize. rewrite Hsize. simpl.
       destruct (map_to_list d) as [| [k v] kvs] eqn:Hkvs;
         [by apply map_to_list_empty_iff in Hkvs |].
       reflexivity. }
  - intros z Hz ->. simpl. apply Z.eqb_neq in Hz. by rewrite Hz.
  - intros ->. reflexivity.
  - intros s Hs ->. simpl. apply String.eqb_neq in Hs. rewrite Hs. simpl.
    destruct s as [| c s]; [by apply String.eqb_neq in Hs |]. reflexivity.
  - intros x xs Hx ->. simpl.
    destruct x as [| | | | | d]; try reflexivity. by destruct (Hx d).
Qed.

Lemma TaskManager_init_not_a_list_of_objects_witness :
  TaskManager_init (Date 2025 2 28)
    (MkWorld [] {[ "tasks.json" := JsonText (VList [VStr "Ship report"]) ]})
  = Raise AttributeError.
Proof.
  refine (proj2 (proj2 (proj2 (proj2 (TaskManager_init_not_a_list_of_objects
            (Date 2025 2 28) []
            {[ "tasks.json" := JsonText (VList [VStr "Ship report"]) ]}))))
            (VStr "Ship report") [] _ eq_refl).
  intros d. discriminate.
Defined.

(** X11.  When every stored document decodes, the manager constructed holds
    the decoded tasks in the order of the file, as new objects: the
    references are fresh, no two are the same, what was in the heap stays,
    and the disk is not written. *)
Theorem TaskManager_init_loads_in_order (today : date) (h : list task)
    (disk : gmap string file) (ds : list value) (ts : list task) :
  disk !! "tasks.json" = Some (JsonText (VList ds)) →
  Forall2 (λ d t, create_task_from_dict today d = Ok t) ds ts →
  let self := MkTaskManager (seq (List.length h) (List.length ts)) tasks_json in
  let w := MkWorld (h ++ ts) disk in
  TaskManager_init today (MkWorld h disk) = Ok (self, w)
  ∧ records self w = Ok ts
  ∧ NoDup (tasks self)
  ∧ Forall (λ l, (List.length h ≤ l)%nat) (tasks self).
Proof.
  intros Hfile Hds self w. split; [| split; [| split]].
  - unfold TaskManager_init, load_tasks, load_data, open_json_load. simpl.
    rewrite Hfile. cbn [try_except mbind result_bind truthy].
    destruct Hds as [| d t ds ts Hd Hds].
    + subst self w. simpl. by rewrite app_nil_r.
    + cbn [List.length Nat.eqb negb iterate mbind result_bind].
      rewrite (comprehension_Forall2 _ (d :: ds) (t :: ts)) by by constructor.
      cbn [mbind result_bind]. by rewrite alloc_all_spec.
  - unfold records. apply comprehension_deref. apply refs_to_seq.
  - apply seq_NoDup_refs.
  - apply Forall_forall. intros l Hl. apply elem_of_seq in Hl. lia.
Qed.

Lemma TaskManager_init_loads_in_order_witness :
  TaskManager_init (Date 2025 2 28)
    (MkWorld [water_plants]
       {[ "tasks.json" := JsonText (VList [VDict (to_dict ship_report);
                                           VDict untyped_document]) ]})
  = Ok (MkTaskManager [1; 2] tasks_json,
        MkWorld [water_plants; set_created_date "2025-02-28" ship_report;
                 Task (Date 2025 2 28) (VStr "Water plants") (VStr "Balcony")
                   (VStr "Pending") (Date 2025 3 1) VNone]
          {[ "tasks.json" := JsonText (VList [VDict (to_dict ship_report);
                                              VDict untyped_document]) ]}).
Proof.
  apply (TaskManager_init_loads_in_order (Date 2025 2 28) [water_plants] _
           [VDict (to_dict ship_report); VDict untyped_document]
           [set_created_date "2025-02-28" ship_report;
            Task (Date 2025 2 28) (VStr "Water plants") (VStr "Balcony")
              (VStr "Pending") (Date 2025 3 1) VNone]).
  - reflexivity.
  - repeat constructor; vm_compute; reflexivity.
Defined.

(** ** How the operations of the manager compose *)

Section Composition.


Lemma set_tasks_same (self : TaskManager) : set_tasks (tasks self) self = self.
Proof. by destruct self. Qed.

(** Some task bears the name, or none does. *)
Lemma name_borne_or_not (task_name : string) (os : list task) :
  Exists (λ o, name o = VStr task_name) os
  ∨ Forall (λ o, name o ≠ VStr task_name) os.
Proof.
  induction os as [| o os [IH | IH]].
  - right. constructor.
  - left. by constructor.
  - destruct (eq_str (name o) task_name) eqn:E.
    + left. constructor. by apply eq_str_true.
    + right. constructor; [by apply eq_str_false | done].
Qed.

Lemma kept_differ (task_name : string) (os : list task) :
  Forall (λ o, name o ≠ VStr task_name) (kept task_name os).
Proof.
  induction os as [| o os IH]; [constructor |].
  rewrite kept_cons. destruct (eq_str (name o) task_name) eqn:E; [done |].
  constructor; [by apply eq_str_false | done].
Qed.

(** What [delete_task] does, by cases. *)
Lemma delete_task_eval (task_name : string) (self : TaskManager) (w : world)
    (os : list task) :
  refs_to (heap w) (tasks self) os →
  (Exists (λ o, name o = VStr task_name) os
   ∧ delete_task task_name self w
     = Ok (true, set_tasks (kept_refs task_name (tasks self) os) self,
           MkWorld (heap w)
             (save_data (file_handler self) (encode_all (kept task_name os)) (disk w))))
  ∨ (Forall (λ o, name o ≠ VStr task_name) os
     ∧ delete_task task_name self w = Ok (false, self, w)).
Proof.
  intros Hrefs. unfold delete_task.
  rewrite (names_differ_ok task_name w _ os Hrefs). cbn [mbind result_bind tasks set_tasks].
  destruct (name_borne_or_not task_name os) as [Hex | Hall]; [left | right].
  - split; [done |].
    pose proof (kept_refs_shorter task_name _ _ _ Hrefs Hex) as Hlt.
    apply Nat.ltb_lt in Hlt. rewrite Hlt.
    rewrite (save_tasks_ok _ w (kept task_name os)); [reflexivity |].
    by apply refs_to_kept.
  - split; [done |].
    rewrite (kept_refs_all task_name _ _ _ Hrefs Hall), Nat.ltb_irrefl.
    by rewrite set_tasks_same.
Qed.

Lemma completed_in_differ (task_name : string) (l : loc) (ls : list loc)
    (os : list task) :
  Forall (λ o, name o ≠ VStr task_name) os →
  Forall (λ o, name o ≠ VStr task_name) (completed_in l ls os).
Proof.
  intros Hall. revert ls. induction Hall as [| o os Ho _ IH]; intros [| l' ls];
    unfold completed_in; simpl; try constructor.
  - by destruct (decide (l' = l)).
  - apply IH.
Qed.

Lemma completed_in_twice (l : loc) (ls : list loc) (os : list task) :
  completed_in l ls (completed_in l ls os) = completed_in l ls os.
Proof.
  revert os. induction ls as [| l' ls IH]; intros [| o os]; try reflexivity.
  unfold completed_in in *. simpl. f_equal; [| apply IH].
  destruct (decide (l' = l)); [by destruct o | done].
Qed.

(** What [complete_task] does where some task bears the name. *)
Lemma complete_task_eval (task_name : string) (self : TaskManager) (w : world)
    (os : list task) :
  refs_to (heap w) (tasks self) os →
  Exists (λ o, name o = VStr task_name) os →
  ∃ pre l post pre_os o,
    tasks self = pre ++ l :: post
    ∧ refs_to (heap w) pre pre_os
    ∧ Forall (λ o', name o' ≠ VStr task_name) pre_os
    ∧ heap w !! l = Some o
    ∧ name o = VStr task_name
    ∧ complete_task task_name self w
      = Ok (true,
            MkWorld (<[l := complete o]> (heap w))
              (save_data (file_handler self)
                 (encode_all (completed_in l (tasks self) os)) (disk w))).
Proof.
  intros Hrefs Hex.
  destruct (first_match_split task_name os Hex)
    as (pre_os & o & post_os & Hos & Hdiffer & Hname).
  pose proof Hrefs as Hsplit. rewrite Hos in Hsplit.
  apply Forall2_app_inv_r in Hsplit as (pre & rest & Hpre & Hrest & Hls).
  inversion Hrest as [| l ? post ? Hl Hpost]; subst rest.
  exists pre, l, post, pre_os, o. repeat split; try done.
  unfold complete_task.
  transitivity (complete_loop task_name self w (pre ++ l :: post));
    [by rewrite <- Hls |].
  by apply (complete_loop_first task_name self w os pre pre_os).
Qed.

Lemma names_differ_sublist (w : world) (task_name : string) (ls ks : list loc) :
  names_differ w task_name ls = Ok ks → ks `sublist_of` ls.
Proof.
  revert ks. induction ls as [| l ls IH]; intros ks; cbn [names_differ].
  - intros [= <-]. constructor.
  - destruct (deref w l) as [o | |]; simpl; [| discriminate ..].
    destruct (names_differ w task_name ls) as [ks' | |]; simpl; [| discriminate ..].
    intros [= <-]. specialize (IH ks' eq_refl).
    destruct (eq_str (name o) task_name); by constructor.
Qed.

Lemma save_tasks_written (self : TaskManager) (w w' : world) :
  save_tasks self w = Ok w' →
  ∃ os, refs_to (heap w) (tasks self) os
        ∧ w' = MkWorld (heap w)
                 (save_data (file_handler self) (encode_all os) (disk w)).
Proof.
  unfold save_tasks.
  assert (Hinv : ∀ ls data,
    comprehension (λ l, task ← deref w l; Ok (VDict (to_dict task))) ls = Ok data →
    ∃ os, refs_to (heap w) ls os ∧ data = (λ o, VDict (to_dict o)) <$> os).
  { induction ls as [| l ls IH]; intros data; cbn [comprehension].
    - intros [= <-]. exists []. split; [constructor | done].
    - destruct (deref w l) as [o | |] eqn:Hl; simpl; [| discriminate ..].
      destruct (comprehension _ ls) as [data' | |] eqn:Hrest; simpl;
        [| discriminate ..].
      intros [= <-]. destruct (IH data' eq_refl) as (os & Hrefs & ->).
      exists (o :: os). split; [| done].
      constructor; [| done].
      unfold deref in Hl. by destruct (heap w !! l); simplify_eq. }
  destruct (comprehension _ (tasks self)) as [data | |] eqn:Hdata; simpl;
    [| discriminate ..].
  intros [= <-]. destruct (Hinv _ _ Hdata) as (os & Hrefs & ->). by exists os.
Qed.

Lemma save_tasks_in_sync (self : TaskManager) (w w' : world) :
  save_tasks self w = Ok w' → in_sync self w'.
Proof.
  intros (os & Hrefs & ->)%save_tasks_written. exists os.
  split; [done |]. unfold save_data. simpl. apply lookup_insert_eq.
Qed.

End Composition.

(** X12.  Deleting on a name twice: the second [delete_task] finds nothing,
    returns [False] and leaves manager, heap and disk as the first left
    them. *)
Theorem delete_task_twice (task_name : string) (self self1 : TaskManager)
    (w w1 : world) (b : bool) :
  wf self w →
  delete_task task_name self w = Ok (b, self1, w1) →
  delete_task task_name self1 w1 = Ok (false, self1, w1).
Proof.
  intros [os Hrefs]%wf_refs_to Hdel.
  destruct (delete_task_eval task_name self w os Hrefs) as [[_ Heq] | [Hall Heq]];
    rewrite Heq in Hdel; injection Hdel as <- <- <-.
  - pose proof (refs_to_kept task_name _ _ _ Hrefs) as Hkept.
    destruct (delete_task_eval task_name
                (set_tasks (kept_refs task_name (tasks self) os) self)
                (MkWorld (heap w)
                   (save_data (file_handler self) (encode_all (kept task_name os))
                      (disk w)))
                (kept task_name os) Hkept) as [[Hex _] | [_ Heq']]; [| exact Heq'].
    exfalso. pose proof (kept_differ task_name os) as Hdiffer.
    apply Exists_exists in Hex as (o & Ho & Hname).
    rewrite Forall_forall in Hdiffer. by apply (Hdiffer o Ho).
  - exact Heq.
Qed.

Lemma delete_task_twice_witness :
  delete_task "Ship report" (MkTaskManager [1] tasks_json)
    (MkWorld [ship_report; water_plants; ship_report_again]
       {[ "tasks.json" := JsonText (encode_all [water_plants]) ]})
  = Ok (false, MkTaskManager [1] tasks_json,
        MkWorld [ship_report; water_plants; ship_report_again]
          {[ "tasks.json" := JsonText (encode_all [water_plants]) ]}).
Proof.
  apply (delete_task_twice "Ship report" three_tasks _ three_objects _ true).
  - repeat constructor.
  - vm_compute. reflexivity.
Defined.

(** X13.  After [delete_task] no task of the list bears the name, so a
    [complete_task] on that name returns [False] and changes nothing. *)
Theorem complete_task_after_delete (task_name : string) (self self1 : TaskManager)
    (w w1 : world) (b : bool) :
  wf self w →
  delete_task task_name self w = Ok (b, self1, w1) →
  (∃ os1, records self1 w1 = Ok os1
          ∧ Forall (λ o, name o ≠ VStr task_name) os1)
  ∧ complete_task task_name self1 w1 = Ok (false, w1).
Proof.
  intros [os Hrefs]%wf_refs_to Hdel.
  assert (Hgoal : ∃ os1, refs_to (heap w1) (tasks self1) os1
                         ∧ Forall (λ o, name o ≠ VStr task_name) os1).
  { destruct (delete_task_eval task_name self w os Hrefs) as [[_ Heq] | [Hall Heq]];
      rewrite Heq in Hdel; injection Hdel as <- <- <-.
    - exists (kept task_name os). split; [by apply refs_to_kept | apply kept_differ].
    - by exists os. }
  destruct Hgoal as (os1 & Hrefs1 & Hall1). split.
  - exists os1. split; [by apply comprehension_deref | done].
  - unfold complete_task. by eapply complete_loop_none.
Qed.

Lemma complete_task_after_delete_witness :
  complete_task "Ship report" (MkTaskManager [1] tasks_json)
    (MkWorld [ship_report; water_plants; ship_report_again]
       {[ "tasks.json" := JsonText (encode_all [water_plants]) ]})
  = Ok (false,
        MkWorld [ship_report; water_plants; ship_report_again]
          {[ "tasks.json" := JsonText (encode_all [water_plants]) ]}).
Proof.
  apply (complete_task_after_delete "Ship report" three_tasks _ three_objects _ true).
  - repeat constructor.
  - vm_compute. reflexivity.
Defined.

(** X14.  Completing on a name twice: the second [complete_task] finds the
    same task, returns [True] again, and heap and disk are as the first
    left them. *)
Theorem complete_task_twice (task_name : string) (self : TaskManager)
    (w w1 : world) :
  wf self w →
  complete_task task_name self w = Ok (true, w1) →
  complete_task task_name self w1 = Ok (true, w1).
Proof.
  intros [os Hrefs]%wf_refs_to Hc.
  destruct (name_borne_or_not task_name os) as [Hex | Hall].
  2: { unfold complete_task in Hc.
       rewrite (complete_loop_none task_name self w _ os Hrefs Hall) in Hc.
       discriminate Hc. }
  destruct (complete_task_eval task_name self w os Hrefs Hex)
    as (pre & l & post & pre_os & o & Hls & Hpre & Hdiffer & Hl & Hname & Heq).
  rewrite Heq in Hc. injection Hc as <-.
  assert (Hl1 : <[l := complete o]> (heap w) !! l = Some (complete o)).
  { apply list_lookup_insert_eq. by eapply lookup_lt_Some. }
  unfold complete_task.
  transitivity (complete_loop task_name self
                  (MkWorld (<[l := complete o]> (heap w))
                     (save_data (file_handler self)
                        (encode_all (completed_in l (tasks self) os)) (disk w)))
                  (pre ++ l :: post)); [by rewrite <- Hls |].
  rewrite (complete_loop_first task_name self _
             (completed_in l (tasks self) os) pre (completed_in l pre pre_os)
             l (complete o) post); cbn [heap disk].
  - rewrite completed_in_twice, list_insert_insert_eq.
    unfold save_data. rewrite insert_insert_eq. by destruct o.
  - by apply refs_to_insert.
  - by apply refs_to_insert.
  - by apply completed_in_differ.
  - exact Hl1.
  - exact Hname.
Qed.

Lemma complete_task_twice_witness :
  complete_task "Ship report" three_tasks
    (MkWorld [complete ship_report; water_plants; ship_report_again]
       {[ "tasks.json" :=
            JsonText (encode_all [complete ship_report; water_plants;
                                  ship_report_again]) ]})
  = Ok (true,
        MkWorld [complete ship_report; water_plants; ship_report_again]
          {[ "tasks.json" :=
               JsonText (encode_all [complete ship_report; water_plants;
                                     ship_report_again]) ]}).
Proof.
  apply (complete_task_twice "Ship report" three_tasks three_objects).
  - repeat constructor.
  - vm_compute. reflexivity.
Defined.

Lemma kept_refs_snoc (task_name : string) (ls : list loc) (os : list task)
    (l : loc) (o : task) :
  List.length ls = List.length os →
  kept_refs task_name (ls ++ [l]) (os ++ [o])
  = kept_refs task_name ls os
    ++ (if eq_str (name o) task_name then [] else [l]).
Proof.
  intros Hlen. unfold kept_refs.
  rewrite zip_with_app by exact Hlen. rewrite List.filter_app, fmap_app. simpl.
  by destruct (eq_str (name o) task_name).
Qed.

Lemma kept_snoc (task_name : string) (os : list task) (o : task) :
  kept task_name (os ++ [o])
  = kept task_name os ++ (if eq_str (name o) task_name then [] else [o]).
Proof.
  unfold kept. rewrite List.filter_app. simpl.
  by destruct (eq_str (name o) task_name).
Qed.

Lemma kept_all (task_name : string) (os : list task) :
  Forall (λ o, name o ≠ VStr task_name) os → kept task_name os = os.
Proof.
  induction 1 as [| o os Ho _ IH]; [reflexivity |].
  apply eq_str_false in Ho. by rewrite kept_cons, Ho, IH.
Qed.

(** X15.  Adding a task under a name that no task of the list bears and
    then deleting on that name gives back the list as it was: the same
    references in the same order, and a file holding their documents. *)
Theorem delete_task_undoes_add_task (task_name : string) (self : TaskManager)
    (w : world) (os : list task) (task_object : loc) (o : task) :
  refs_to (heap w) (tasks self) os →
  Forall (λ o', name o' ≠ VStr task_name) os →
  heap w !! task_object = Some o →
  name o = VStr task_name →
  ∃ self1 w1,
    add_task task_object self w = Ok (self1, w1)
    ∧ delete_task task_name self1 w1
      = Ok (true, self,
            MkWorld (heap w)
              (save_data (file_handler self) (encode_all os) (disk w))).
Proof.
  intros Hrefs Hdiffer Hl Hname.
  eexists _, _. split; [by apply (add_task_ok self w os) |].
  pose proof (refs_to_app _ _ _ _ _ Hrefs Hl) as Hrefs1.
  destruct (delete_task_eval task_name
              (set_tasks (tasks self ++ [task_object]) self)
              (MkWorld (heap w)
                 (<[filename (file_handler self) :=
                      JsonText (encode_all (os ++ [o]))]> (disk w)))
              (os ++ [o]) Hrefs1) as [[_ Heq] | [Hall _]].
  - rewrite Heq. cbn [tasks set_tasks file_handler heap disk].
    apply eq_str_true in Hname.
    rewrite kept_refs_snoc by by eapply Forall2_length.
    rewrite kept_snoc, Hname, !app_nil_r.
    rewrite (kept_refs_all task_name _ _ _ Hrefs Hdiffer), (kept_all _ _ Hdiffer).
    unfold save_data. rewrite insert_insert_eq. by destruct self.
  - apply Forall_app in Hall as [_ Hlast].
    by inversion Hlast.
Qed.

Lemma delete_task_undoes_add_task_witness :
  ∃ self1 w1,
    add_task 1 (MkTaskManager [0] tasks_json) (MkWorld [water_plants; ship_report] ∅)
    = Ok (self1, w1)
    ∧ delete_task "Ship report" self1 w1
      = Ok (true, MkTaskManager [0] tasks_json,
            MkWorld [water_plants; ship_report]
              {[ "tasks.json" := JsonText (encode_all [water_plants]) ]}).
Proof.
  apply (delete_task_undoes_add_task "Ship report" (MkTaskManager [0] tasks_json)
           (MkWorld [water_plants; ship_report] ∅) [water_plants] 1 ship_report).
  - repeat constructor.
  - repeat constructor. discriminate.
  - reflexivity.
  - reflexivity.
Defined.

(** ** What is written, and where *)

Lemma save_tasks_disk (self : TaskManager) (w w' : world) (path : string) :
  save_tasks self w = Ok w' →
  path ≠ filename (file_handler self) →
  disk w' !! path = disk w !! path.
Proof.
  intros (os & _ & ->)%save_tasks_written Hne.
  unfold save_data. simpl. by rewrite lookup_insert_ne.
Qed.

Lemma complete_loop_disk (task_name : string) (self : TaskManager) (w w' : world)
    (ls : list loc) (b : bool) (path : string) :
  complete_loop task_name self w ls = Ok (b, w') →
  path ≠ filename (file_handler self) →
  disk w' !! path = disk w !! path.
Proof.
  intros Hc Hne. induction ls as [| l ls IH]; cbn [complete_loop] in Hc.
  - by injection Hc as <- <-.
  - destruct (deref w l) as [o | |]; simpl in Hc; [| discriminate ..].
    destruct (eq_str (name o) task_name); [| by apply IH].
    destruct (save_tasks self _) as [w1 | |] eqn:Hsave; simpl in Hc;
      [| discriminate ..].
    injection Hc as <- <-. by apply (save_tasks_disk _ _ _ _ Hsave).
Qed.

Lemma load_tasks_disk (today : date) (self self' : TaskManager) (w w' : world) :
  load_tasks today self w = Ok (self', w') → disk w' = disk w.
Proof.
  unfold load_tasks.
  destruct (load_data _ _) as [v | |]; simpl; [| discriminate ..].
  destruct (truthy v).
  - destruct (iterate v) as [ds | |]; simpl; [| discriminate ..].
    destruct (comprehension _ ds) as [os | |]; simpl; [| discriminate ..].
    rewrite alloc_all_spec. by intros [= _ <-].
  - by intros [= _ <-].
Qed.

(** X16.  An operation writes no file but the one of the manager's
    handler: every other path of the disk holds after it what it held
    before; constructing a manager writes nothing at all; and adding,
    deleting and completing keep the handler. *)
Theorem run_writes_own_file_only (op : operation) (self self' : TaskManager)
    (w w' : world) :
  run op (self, w) = Ok (self', w') →
  (∀ path, path ≠ filename (file_handler self) → disk w' !! path = disk w !! path)
  ∧ (∀ today, op = Construct today → disk w' = disk w)
  ∧ ((∀ today, op ≠ Construct today) → file_handler self' = file_handler self).
Proof.
  destruct op as [l | n | n | today]; simpl.
  - unfold add_task.
    destruct (save_tasks _ w) as [w1 | |] eqn:Hsave; simpl; [| discriminate ..].
    intros [= <- <-]. split; [| split]; [| done | done].
    intros path Hne. by apply (save_tasks_disk _ _ _ _ Hsave).
  - unfold delete_task.
    destruct (names_differ w n (tasks self)) as [ks | |]; simpl; [| discriminate ..].
    destruct (_ <? _)%nat.
    + destruct (save_tasks _ w) as [w1 | |] eqn:Hsave; simpl; [| discriminate ..].
      intros [= <- <-]. split; [| split]; [| done | done].
      intros path Hne. by apply (save_tasks_disk _ _ _ _ Hsave).
    + simpl. intros [= <- <-]. by split; [| split].
  - destruct (complete_task n self w) as [[b w1] | |] eqn:Hc; simpl;
      [| discriminate ..].
    intros [= <- <-]. split; [| split]; [| done | done].
    intros path Hne. by apply (complete_loop_disk _ _ _ _ _ _ _ Hc).
  - intros Hload. apply load_tasks_disk in Hload as ->.
    split; [done | split; [done |]]. intros Hne. by destruct (Hne today).
Qed.

Lemma run_writes_own_file_only_witness :
  ({[ "tasks.json" :=
        JsonText (encode_all [complete ship_report; water_plants; ship_report_again]) ]}
   : gmap string file) !! "notes.txt"
  = (∅ : gmap string file) !! "notes.txt".
Proof.
  refine (proj1 (run_writes_own_file_only (CompleteTask "Ship report")
            three_tasks three_tasks three_objects
            (MkWorld [complete ship_report; water_plants; ship_report_again]
               {[ "tasks.json" :=
                    JsonText (encode_all [complete ship_report; water_plants;
                                          ship_report_again]) ]}) _)
            "notes.txt" _).
  - reflexivity.
  - discriminate.
Defined.

Lemma sublist_same_length {A} (ks ls : list A) :
  ks `sublist_of` ls → (List.length ls ≤ List.length ks)%nat → ks = ls.
Proof.
  induction 1 as [| x ks ls _ IH | x ks ls Hsub _]; simpl; intros Hlen.
  - reflexivity.
  - f_equal. apply IH. lia.
  - apply sublist_length in Hsub. lia.
Qed.

Lemma complete_loop_in_sync (task_name : string) (self : TaskManager) (w w' : world)
    (ls : list loc) (b : bool) :
  complete_loop task_name self w ls = Ok (b, w') →
  (b = false ∧ w' = w) ∨ (b = true ∧ in_sync self w').
Proof.
  induction ls as [| l ls IH]; cbn [complete_loop].
  - intros [= <- <-]. by left.
  - destruct (deref w l) as [o | |]; simpl; [| discriminate ..].
    destruct (eq_str (name o) task_name); [| exact IH].
    destruct (save_tasks self _) as [w1 | |] eqn:Hsave; simpl; [| discriminate ..].
    intros [= <- <-]. right. split; [done |]. by apply save_tasks_in_sync in Hsave.
Qed.

(** X17.  Adding, deleting and completing keep file and memory together:
    whenever one of them returns, either nothing has changed, or the file
    of the manager holds exactly the documents of the tasks of its list as
    they now are. *)
Theorem run_leaves_file_in_sync (op : operation) (self self' : TaskManager)
    (w w' : world) :
  (∀ today, op ≠ Construct today) →
  run op (self, w) = Ok (self', w') →
  (self', w') = (self, w) ∨ in_sync self' w'.
Proof.
  intros Hop. destruct op as [l | n | n | today]; simpl.
  - unfold add_task.
    destruct (save_tasks _ w) as [w1 | |] eqn:Hsave; simpl; [| discriminate ..].
    intros [= <- <-]. right. by apply save_tasks_in_sync in Hsave.
  - unfold delete_task.
    destruct (names_differ w n (tasks self)) as [ks | |] eqn:Hks; simpl;
      [| discriminate ..].
    destruct (_ <? _)%nat eqn:Hlt.
    + destruct (save_tasks _ w) as [w1 | |] eqn:Hsave; simpl; [| discriminate ..].
      intros [= <- <-]. right. by apply save_tasks_in_sync in Hsave.
    + simpl. intros [= <- <-]. left.
      apply names_differ_sublist in Hks. apply Nat.ltb_ge in Hlt.
      rewrite (sublist_same_length _ _ Hks Hlt). by rewrite set_tasks_same.
  - destruct (complete_task n self w) as [[b w1] | |] eqn:Hc; simpl;
      [| discriminate ..].
    intros [= <- <-].
    apply complete_loop_in_sync in Hc as [[_ ->] | [_ Hsync]]; [by left | by right].
  - by destruct (Hop today).
Qed.

Lemma run_leaves_file_in_sync_witness :
  (MkTaskManager [1] tasks_json,
   MkWorld [ship_report; water_plants; ship_report_again]
     {[ "tasks.json" := JsonText (encode_all [water_plants]) ]})
  = (three_tasks, three_objects)
  ∨ in_sync (MkTaskManager [1] tasks_json)
      (MkWorld [ship_report; water_plants; ship_report_again]
         {[ "tasks.json" := JsonText (encode_all [water_plants]) ]}).
Proof.
  apply (run_leaves_file_in_sync (DeleteTask "Ship report") three_tasks _
           three_objects _).
  - intros today. discriminate.
  - vm_compute. reflexivity.
Defined.

(** X18.  What a mutation wrote, a restart reads: from a file that holds
    the documents of the tasks in memory, all with due dates of the
    calendar from the year 1000 on, a new manager gets the same tasks in
    the same order, each with the day of the restart as its [created_date]
    and nothing else changed. *)
Theorem TaskManager_init_after_sync (today : date) (self : TaskManager) (w : world) :
  in_sync self w →
  file_handler self = tasks_json →
  (∀ l o, l ∈ tasks self → heap w !! l = Some o →
          portable_date (due_date o) = true) →
  ∃ os self2 w2,
    records self w = Ok os
    ∧ TaskManager_init today w = Ok (self2, w2)
    ∧ records self2 w2 = Ok (set_created_date (strftime today) <$> os).
Proof.
  intros (os & Hrefs & Hfile) Hfh Hvalid. rewrite Hfh in Hfile. simpl in Hfile.
  assert (Hv : Forall (λ o, portable_date (due_date o) = true) os).
  { clear Hfile. induction Hrefs as [| l o ls os Hl _ IH]; constructor.
    - apply (Hvalid l o); [left | done].
    - apply IH. intros l' o' Hin. apply Hvalid. by right. }
  pose proof (comprehension_decode today os Hv) as Hdec.
  pose proof (comprehension_deref w _ os Hrefs) as Hrecords.
  exists os. unfold records at 1. rewrite Hrecords.
  unfold TaskManager_init, load_tasks, load_data, open_json_load.
  cbn [file_handler filename]. rewrite Hfile.
  cbn [try_except mbind result_bind encode_all truthy iterate].
  rewrite length_fmap.
  destruct os as [| o os'].
  - eexists _, _. simpl. repeat split; reflexivity.
  - cbn [List.length Nat.eqb negb]. rewrite Hdec. cbn [mbind result_bind].
    rewrite alloc_all_spec. eexists _, _. split; [reflexivity |].
    split; [reflexivity |].
    unfold records. apply comprehension_deref. apply refs_to_seq.
Qed.

Lemma TaskManager_init_after_sync_witness :
  ∃ os self2 w2,
    records (MkTaskManager [1] tasks_json)
      (MkWorld [ship_report; water_plants; ship_report_again]
         {[ "tasks.json" := JsonText (encode_all [water_plants]) ]}) = Ok os
    ∧ TaskManager_init (Date 2025 2 28)
        (MkWorld [ship_report; water_plants; ship_report_again]
           {[ "tasks.json" := JsonText (encode_all [water_plants]) ]})
      = Ok (self2, w2)
    ∧ records self2 w2 = Ok (set_created_date (strftime (Date 2025 2 28)) <$> os).
Proof.
  apply (TaskManager_init_after_sync (Date 2025 2 28) (MkTaskManager [1] tasks_json)).
  - exists [water_plants]. split; [repeat constructor | reflexivity].
  - reflexivity.
  - intros l o Hl. apply list_elem_of_singleton in Hl as ->.
    intros [= <-]. reflexivity.
Defined.

(** X19.  The operations bring no object into the list twice: if no
    reference is repeated in the list and the caller does not add an object
    that is already in it, no reference is repeated afterwards; a manager
    that is constructed starts so. *)
Theorem run_keeps_references_distinct (op : operation) (self self' : TaskManager)
    (w w' : world) :
  NoDup (tasks self) →
  (∀ task_object, op = AddTask task_object → task_object ∉ tasks self) →
  run op (self, w) = Ok (self', w') →
  NoDup (tasks self').
Proof.
  intros Hnodup Hfresh. destruct op as [l | n | n | today]; simpl.
  - unfold add_task.
    destruct (save_tasks _ w) as [w1 | |]; simpl; [| discriminate ..].
    intros [= <- <-]. cbn [tasks set_tasks].
    apply NoDup_app. split; [done | split].
    + intros x Hx ->%list_elem_of_singleton. by apply (Hfresh l).
    + apply NoDup_singleton.
  - unfold delete_task.
    destruct (names_differ w n (tasks self)) as [ks | |] eqn:Hks; simpl;
      [| discriminate ..].
    apply names_differ_sublist in Hks.
    destruct (_ <? _)%nat.
    + destruct (save_tasks _ w) as [w1 | |]; simpl; [| discriminate ..].
      intros [= <- <-]. by eapply sublist_NoDup.
    + simpl. intros [= <- <-]. by eapply sublist_NoDup.
  - destruct (complete_task n self w) as [[b w1] | |]; simpl; [| discriminate ..].
    by intros [= <- <-].
  - unfold TaskManager_init, load_tasks.
    destruct (load_data _ _) as [v | |]; simpl; [| discriminate ..].
    destruct (truthy v); [| intros [= <- <-]; constructor].
    destruct (iterate v) as [ds | |]; simpl; [| discriminate ..].
    destruct (comprehension _ ds) as [new | |]; simpl; [| discriminate ..].
    rewrite alloc_all_spec. intros [= <- <-]. apply seq_NoDup_refs.
Qed.

Lemma run_keeps_references_distinct_witness : NoDup [1].
Proof.
  apply (run_keeps_references_distinct (DeleteTask "Ship report") three_tasks
           (MkTaskManager [1] tasks_json) three_objects
           (MkWorld [ship_report; water_plants; ship_report_again]
              {[ "tasks.json" := JsonText (encode_all [water_plants]) ]})).
  - apply (seq_NoDup_refs 0 3).
  - intros l. discriminate.
  - vm_compute. reflexivity.
Defined.

(** ** The form of the page *)

(** X20.  The form adds nothing unless it is submitted with a name: with
    the button not pressed, or with an empty name, whatever the other
    widgets hold, no task is constructed, nothing is written and no message
    is shown. *)
Theorem task_form_needs_name (today : date) (task_type name description : string)
    (due_date : date) (status priority category : string) (reminder_duration : Z)
    (submitted : bool) (self : TaskManager) (w : world) :
  submitted = false ∨ name = EmptyString →
  task_form today task_type name description due_date status priority category
    reminder_duration submitted self w
  = Ok (None, self, w).
Proof.
  intros Hblank. unfold task_form.
  assert (submitted && truthy (VStr name) = false) as ->.
  { destruct Hblank as [-> | ->]; [done | by rewrite andb_false_r]. }
  by repeat case_match.
Qed.

Lemma task_form_needs_name_witness :
  task_form (Date 2025 2 27) "Work Task" EmptyString "Quarterly figures"
    (Date 2025 3 1) "Pending" "High" "Hobby" 2 true three_tasks three_objects
  = Ok (None, three_tasks, three_objects).
Proof.
  apply (task_form_needs_name (Date 2025 2 27) "Work Task" EmptyString). by right.
Defined.


